(** * Finders and Not Keepers: the lost-and-found service of [main.py]

    A shallow embedding of the request handlers of [main.py] and of the
    helpers they call, with the properties of the written specification
    stated over it.

    Conventions of the embedding.
    - A Python [str] is a Rocq [string]; each character stands for the code
      point of the same number, so the strings of the model are the Python
      strings whose code points are below 256.
    - A value returned by [response.json()] is a [json].
    - A Python computation that may raise is a [py_result]; [try]/[except]
      is [try_except].
    - The three collaborators (image host, classifier endpoint, database
      server) answer as an [env] says; the handlers thread a [world] that
      holds the [items] table and the log of calls made to collaborators. *)

From Stdlib Require Import ZArith Ascii String.
From stdpp Require Import base option list sorting gmap strings.

Local Open Scope string_scope.
Set Warnings "-register-all".

(** ** Python strings *)

Module PyStr.

(** [str.lower] on one code point below 256: the capitals [A]..[Z] and
    the capitals of the Latin-1 block (U+00C0..U+00DE, the multiplication
    sign U+00D7 apart) move up by 32; everything else is kept. *)
Definition lower_char (c : ascii) : ascii :=
  let n := N_of_ascii c in
  if ((65 <=? n) && (n <=? 90))%N then ascii_of_N (n + 32)
  else if ((192 <=? n) && (n <=? 222) && negb (n =? 215))%N
       then ascii_of_N (n + 32)
       else c.

(** [s.lower()] *)
Fixpoint lower (s : string) : string :=
  match s with
  | EmptyString => EmptyString
  | String c s' => String (lower_char c) (lower s')
  end.

(** [s.startswith(p)] *)
Fixpoint startswith (p s : string) : bool :=
  match p, s with
  | EmptyString, _ => true
  | String a p', String b s' => Ascii.eqb a b && startswith p' s'
  | String _ _, EmptyString => false
  end.

(** [needle in hay] for two strings: [needle] occurs in [hay] as a
    contiguous run of characters. *)
Fixpoint contains (needle hay : string) : bool :=
  startswith needle hay ||
  match hay with
  | EmptyString => false
  | String _ hay' => contains needle hay'
  end.

(** ["\x00" in s]: [s] holds a NUL character. *)
Fixpoint has_nul (s : string) : bool :=
  match s with
  | EmptyString => false
  | String c s' => Ascii.eqb c Ascii.zero || has_nul s'
  end.

End PyStr.

(** ** JSON values and the Python operations applied to them *)

(** A JSON number is kept as the decimal [mantissa * 10 ^ exponent] of its
    literal; no operation of the program looks inside one. *)
Inductive json : Type :=
  | JNull
  | JBool (b : bool)
  | JNum (mantissa exponent : Z)
  | JStr (s : string)
  | JArr (items : list json)
  | JObj (fields : gmap string json).

(** The exception classes that occur; all of them derive from
    [Exception]. *)
Inductive exn : Type :=
  | IndexError
  | KeyError
  | TypeError
  | AttributeError
  | RequestException      (* requests: connection failure, timeout, ... *)
  | JSONDecodeError       (* response.json() on a body that is not JSON *)
  | ValidationError       (* pydantic, raised by the model constructor *)
  | RequestValidationError (* FastAPI, a declared parameter is missing *)
  | HTTPException (status_code : Z)
  | CloudinaryError
  | DatabaseError
  | ValueError.           (* psycopg2, a string parameter with a NUL in it *)

Inductive py_result (A : Type) : Type :=
  | Ok (a : A)
  | Raise (e : exn).
Arguments Ok {A} a.
Arguments Raise {A} e.

Definition py_bind {A B} (r : py_result A) (k : A -> py_result B) : py_result B :=
  match r with
  | Ok a => k a
  | Raise e => Raise e
  end.

(** [try: body  except Exception as e: handler(e)] *)
Definition try_except {A} (body : py_result A) (handler : exn -> py_result A)
  : py_result A :=
  match body with
  | Ok a => Ok a
  | Raise e => handler e
  end.

Declare Scope py_scope.
Delimit Scope py_scope with py.
Notation "x <- r ; k" := (py_bind r (fun x => k))
  (at level 100, r at next level, right associativity) : py_scope.

Module Py.

(** [isinstance(v, dict)] and [isinstance(v, list)] *)
Definition is_dict (v : json) : bool :=
  match v with JObj _ => true | _ => false end.
Definition is_list (v : json) : bool :=
  match v with JArr _ => true | _ => false end.

(** [key in v], for a string [key]: a key test on a dict, an element test
    on a list (only a string equal to [key] is equal to it), a substring
    test on a string, and a [TypeError] on the values that are not
    containers. *)
Definition contains_key (key : string) (v : json) : py_result bool :=
  match v with
  | JObj fields => Ok (bool_decide (is_Some (fields !! key)))
  | JArr items =>
      Ok (existsb (fun x => match x with
                            | JStr s => String.eqb s key
                            | _ => false
                            end) items)
  | JStr s => Ok (PyStr.contains key s)
  | JNull | JBool _ | JNum _ _ => Raise TypeError
  end.

(** [v[key]], for a string [key]. *)
Definition getitem_key (key : string) (v : json) : py_result json :=
  match v with
  | JObj fields =>
      match fields !! key with
      | Some x => Ok x
      | None => Raise KeyError
      end
  | JArr _ | JStr _ | JNull | JBool _ | JNum _ _ => Raise TypeError
  end.

(** [v[0]]: the first element of a list, the first character of a string;
    a dict parsed from JSON has string keys only, so [0] is not a key of
    it. *)
Definition getitem_0 (v : json) : py_result json :=
  match v with
  | JArr (x :: _) => Ok x
  | JArr [] => Raise IndexError
  | JStr (String c _) => Ok (JStr (String c EmptyString))
  | JStr EmptyString => Raise IndexError
  | JObj _ => Raise KeyError
  | JNull | JBool _ | JNum _ _ => Raise TypeError
  end.

(** [v.lower()]: only strings have the method. *)
Definition lower (v : json) : py_result string :=
  match v with
  | JStr s => Ok (PyStr.lower s)
  | _ => Raise AttributeError
  end.

End Py.

(** ** Layer 4: the auto-tagger *)

(** The candidate labels sent with every request, in the order of the
    source. *)
Definition labels : list string :=
  [ "electronics"; "clothing"; "accessories"; "documents"; "books";
    "sports_equipment"; "toys"; "keys"; "tools";
    "wallets_and_purses"; "bags_and_backpacks"; "jewelry"; "watches";
    "glasses_and_sunglasses"; "umbrellas"; "cosmetics_and_makeup";
    "id_cards_and_badges"; "credit_cards"; "driver_license"; "passport";
    "tickets";
    "stationery"; "notebooks"; "laptops_and_tablets"; "usb_drives";
    "calculators"; "school_supplies"; "office_supplies";
    "bicycles"; "helmets"; "vehicle_keys";
    "food_containers"; "bottles"; "miscellaneous" ].

(** The [if]/[elif]/[else] chain of [auto_tag_item] on the parsed body
    [result]; every failing subscript, membership test or method call
    raises here and is caught by the caller below. The [else] branch prints
    and returns the fallback. *)
Definition top_label (result : json) : py_result string :=
  (in_dict <- (if Py.is_dict result then Py.contains_key "labels" result
               else Ok false);
   if in_dict then
     (ls <- Py.getitem_key "labels" result;
      top <- Py.getitem_0 ls;
      Py.lower top)
   else
     (in_list <- (if Py.is_list result then
                    (first <- Py.getitem_0 result;
                     Py.contains_key "label" first)
                  else Ok false);
      if in_list then
        (first <- Py.getitem_0 result;
         l <- Py.getitem_key "label" first;
         Py.lower l)
      else Ok "miscellaneous"))%py.

(** ** Layer 1: the item schema *)

Module ItemCreate.

Record t : Type := make {
  item_type : string;
  item_name : string;
  description : option string;
  location : string;
  contact_info : string;
  image_url : option string;
  tag : option string
}.

(** The field constraints checked by the model constructor. *)
Definition valid (item_type item_name : string) (description : option string)
           (location : string) : bool :=
  (String.eqb item_type "lost" || String.eqb item_type "found")
  && (2 <=? String.length item_name)%nat
  && (String.length item_name <=? 100)%nat
  && match description with
     | None => true
     | Some d => (String.length d <=? 500)%nat
     end
  && (2 <=? String.length location)%nat.

(** [cls(item_type=..., ..., contact_info=...)]: [image_url] and [tag]
    take their default [None]; a violated constraint raises pydantic's
    [ValidationError]. *)
Definition cls (item_type item_name : string) (description : option string)
           (location contact_info : string) : py_result t :=
  if valid item_type item_name description location
  then Ok (make item_type item_name description location contact_info None None)
  else Raise ValidationError.

Definition set_image_url (v : string) (i : t) : t :=
  make (item_type i) (item_name i) (description i) (location i)
       (contact_info i) (Some v) (tag i).

Definition set_tag (v : string) (i : t) : t :=
  make (item_type i) (item_name i) (description i) (location i)
       (contact_info i) (image_url i) (Some v).

End ItemCreate.

(** The form fields of a POST to [/submit-item], each present (with the
    value sent, which may be empty) or absent. *)
Record form : Type := {
  form_item_type : option string;
  form_item_name : option string;
  form_description : option string;
  form_location : option string;
  form_contact_info : option string
}.

(** How the framework reads a parameter declared with [Form]: a field sent
    empty counts as not sent. *)
Definition form_value (o : option string) : option string :=
  match o with
  | Some EmptyString => None
  | _ => o
  end.

(** [ItemCreate.as_form] used as a dependency: the four parameters declared
    [Form(...)] are required, and the framework raises its
    [RequestValidationError] when one is absent or empty; [description],
    declared [Form(None)], is [None] when absent or empty. Then the body
    runs and builds the model, whose [ValidationError] is raised from
    inside the dependency. *)
Definition as_form (f : form) : py_result ItemCreate.t :=
  match form_value (form_item_type f), form_value (form_item_name f),
        form_value (form_location f), form_value (form_contact_info f) with
  | Some item_type, Some item_name, Some location, Some contact_info =>
      ItemCreate.cls item_type item_name (form_value (form_description f))
        location contact_info
  | _, _, _, _ => Raise RequestValidationError
  end.

(** ** Layer 2: the [items] table *)

Module Sql.

(** A value of a column. *)
Inductive value : Type :=
  | Null
  | Int (n : Z)
  | Text (s : string)
  | Timestamp (t : Z).

Definition of_text (o : option string) : value :=
  match o with
  | Some s => Text s
  | None => Null
  end.

(** Storing [s] into a [VARCHAR(n)] column: kept when it fits; when it is
    longer and the excess is spaces only it is cut to [n] characters;
    otherwise the statement fails. *)
Fixpoint all_spaces (s : string) : bool :=
  match s with
  | EmptyString => true
  | String c s' => Ascii.eqb c " " && all_spaces s'
  end.

Definition varchar (n : nat) (s : string) : option string :=
  if (String.length s <=? n)%nat then Some s
  else if all_spaces (String.substring n (String.length s - n) s)
       then Some (String.substring 0 n s)
       else None.

(** [LIKE] patterns: [%] stands for any run of characters, [_] for any
    one character, and a backslash makes the character after it stand
    for itself; a pattern may not end in a lone backslash. *)
Inductive tok : Type :=
  | TAny
  | TOne
  | TLit (c : ascii).

Fixpoint tokens (p : string) : option (list tok) :=
  match p with
  | EmptyString => Some []
  | String c p' =>
      if Ascii.eqb c "%" then cons TAny <$> tokens p'
      else if Ascii.eqb c "_" then cons TOne <$> tokens p'
      else if Ascii.eqb c "\" then
        match p' with
        | EmptyString => None
        | String d p'' => cons (TLit d) <$> tokens p''
        end
      else cons (TLit c) <$> tokens p'
  end.

Fixpoint matches (ts : list tok) (s : string) {struct ts} : bool :=
  match ts with
  | [] => match s with EmptyString => true | _ => false end
  | TLit c :: ts' =>
      match s with
      | String d s' => Ascii.eqb c d && matches ts' s'
      | EmptyString => false
      end
  | TOne :: ts' =>
      match s with
      | String _ s' => matches ts' s'
      | EmptyString => false
      end
  | TAny :: ts' =>
      (fix from (s : string) : bool :=
         matches ts' s ||
         match s with
         | String _ s' => from s'
         | EmptyString => false
         end) s
  end.

(** [text LIKE pattern]; [None] is the error of a malformed pattern. *)
Definition like (text pattern : string) : option bool :=
  ts ← tokens pattern; Some (matches ts text).

(** [text ILIKE pattern]: [LIKE] on the two strings in lower case. *)
Definition ilike (text pattern : string) : option bool :=
  like (PyStr.lower text) (PyStr.lower pattern).

End Sql.

Module Items.

(** A row of the table created by [init_db]. [item_type], [item_name],
    [location] and [contact_info] are [NOT NULL]; [id] is the primary
    key. *)
Record row : Type := make {
  id : Z;
  item_type : string;
  item_name : string;
  description : option string;
  location : string;
  contact_info : string;
  image_path : option string;
  tag : option string;
  created_at : Z
}.

(** The columns in the order of the [CREATE TABLE] statement, which is
    the order of [SELECT *] and of [cursor.description]. *)
Definition columns : list string :=
  [ "id"; "item_type"; "item_name"; "description"; "location";
    "contact_info"; "image_path"; "tag"; "created_at" ].

(** A row as the tuple the cursor returns. *)
Definition to_tuple (r : row) : list Sql.value :=
  [ Sql.Int (id r); Sql.Text (item_type r); Sql.Text (item_name r);
    Sql.of_text (description r); Sql.Text (location r);
    Sql.Text (contact_info r); Sql.of_text (image_path r);
    Sql.of_text (tag r); Sql.Timestamp (created_at r) ].

End Items.

(** [dict(pairs)]: a later pair with the same key replaces an earlier
    one. *)
Definition dict {V} (pairs : list (string * V)) : gmap string V :=
  foldl (fun m kv => <[kv.1 := kv.2]> m) ∅ pairs.

(** ** Collaborators, state and the handler monad *)

Module UploadFile.
(** An uploaded file part: its declared name, if any, and its content. *)
Record t : Type := make {
  filename : option string;
  file : string
}.
End UploadFile.

(** Truth value of an optional string: [None] and [""] are false. *)
Definition truthy (o : option string) : bool :=
  match o with
  | None | Some EmptyString => false
  | Some (String _ _) => true
  end.

(** A call made to a collaborator. *)
Inductive call : Type :=
  | CallUpload (content : string)         (* cloudinary.uploader.upload *)
  | CallClassify (text : string)          (* requests.post to the classifier *)
  | CallInsert (values : ItemCreate.t).   (* cursor.execute of the INSERT *)

(** How the collaborators answer during one request. *)
Record env : Type := {
  upload : py_result (gmap string string); (* the upload result, a dict *)
  classifier : py_result json;   (* requests.post(...) then response.json() *)
  connect : bool;                (* whether psycopg2.connect succeeds *)
  now : Z                        (* CURRENT_TIMESTAMP *)
}.

Record world : Type := {
  items : list Items.row;        (* the table, in physical order *)
  items_id_seq : Z;              (* the next value of the SERIAL column *)
  calls : list call              (* calls made so far, oldest first *)
}.

Definition M (A : Type) : Type := env -> world -> py_result A * world.

Definition ret {A} (a : A) : M A := fun _ w => (Ok a, w).

Definition bind {A B} (m : M A) (k : A -> M B) : M B :=
  fun e w =>
    match m e w with
    | (Ok a, w') => k a e w'
    | (Raise x, w') => (Raise x, w')
    end.

Definition raise {A} (x : exn) : M A := fun _ w => (Raise x, w).

Definition lift {A} (r : py_result A) : M A := fun _ w => (r, w).

(** [try]/[except Exception] around a computation with effects: what the
    body did before raising stays done. *)
Definition catch {A} (body : M A) (handler : exn -> M A) : M A :=
  fun e w =>
    match body e w with
    | (Ok a, w') => (Ok a, w')
    | (Raise x, w') => handler x e w'
    end.

(** The world after one more call [c]. *)
Definition record_call (c : call) (w : world) : world :=
  {| items := items w; items_id_seq := items_id_seq w;
     calls := calls w ++ [c] |}.

Definition log (c : call) : M unit := fun _ w => (Ok tt, record_call c w).

Declare Scope handler_scope.
Delimit Scope handler_scope with M.
Notation "x <- m ; k" := (bind m (fun x => k))
  (at level 100, m at next level, right associativity) : handler_scope.
Notation "m ;; k" := (bind m (fun _ => k))
  (at level 100, right associativity) : handler_scope.

(** [get_connection] *)
Definition get_connection : M unit :=
  fun e w => (if connect e then Ok tt else Raise DatabaseError, w).

(** ** Layer 3: the image host *)

Definition cloudinary_upload (content : string) : M (gmap string string) :=
  (log (CallUpload content);; fun e w => (upload e, w))%M.

Definition save_uploaded_image (file : UploadFile.t) : M string :=
  if truthy (UploadFile.filename file) then
    (upload_result <- cloudinary_upload (UploadFile.file file);
     ret (default "" (upload_result !! "secure_url")))%M
  else ret "".

(** ** Layer 4 (continued): [auto_tag_item] *)

Definition requests_post_json (text : string) : M json :=
  (log (CallClassify text);; fun e w => (classifier e, w))%M.

Definition auto_tag_item (item_name description : string) : M string :=
  let text := item_name ++ " " ++ description in
  catch (result <- requests_post_json text; lift (top_label result))%M
        (fun _ => ret "miscellaneous").

(** ** Responses *)

Inductive context : Type :=
  | ItemsContext (items : list (gmap string Sql.value)) (search : string)
  | ItemContext (item : gmap string Sql.value).

Inductive response : Type :=
  | RedirectResponse (url : string) (status_code : Z)
  | TemplateResponse (name : string) (ctx : context)
  | ErrorResponse (status_code : Z).

(** What the framework answers for a handler: its response, the status of
    an [HTTPException], 422 for its own [RequestValidationError], and 500
    for every other exception that escapes. *)
Definition serve (h : M response) (e : env) (w : world) : response * world :=
  match h e w with
  | (Ok r, w') => (r, w')
  | (Raise (HTTPException n), w') => (ErrorResponse n, w')
  | (Raise RequestValidationError, w') => (ErrorResponse 422, w')
  | (Raise _, w') => (ErrorResponse 500, w')
  end.

(** ** Layer 5: the read routes *)

(** [ORDER BY created_at DESC]; rows with equal timestamps come in the
    order the sort leaves them. *)
Definition newer_first (a b : Items.row) : Prop :=
  (Items.created_at b <= Items.created_at a)%Z.

#[global] Instance newer_first_dec a b : Decision (newer_first a b).
Proof. unfold newer_first. apply _. Defined.

Definition order_by_created_at_desc (rows : list Items.row) : list Items.row :=
  merge_sort newer_first rows.

(** [WHERE item_name ILIKE p OR location ILIKE p] on one row. *)
Definition where_search (p : string) (r : Items.row) : option bool :=
  a ← Sql.ilike (Items.item_name r) p;
  b ← Sql.ilike (Items.location r) p;
  Some (a || b).

Fixpoint select_where (cond : Items.row -> option bool) (rows : list Items.row)
  : option (list Items.row) :=
  match rows with
  | [] => Some []
  | r :: rows' =>
      keep ← cond r;
      rest ← select_where cond rows';
      Some (if keep : bool then r :: rest else rest)
  end.

Definition item_dict (r : Items.row) : gmap string Sql.value :=
  dict (zip Items.columns (Items.to_tuple r)).

(** The rows fetched by [view_items]. With a search text the pattern is a
    parameter of the statement, and the driver refuses a string parameter
    that holds a NUL character before anything is sent. *)
Definition fetch_items (search : string) : M (list Items.row) :=
  fun e w =>
    if truthy (Some search) then
      if PyStr.has_nul ("%" ++ search ++ "%") then (Raise ValueError, w)
      else
        match select_where (where_search ("%" ++ search ++ "%")) (items w) with
        | Some rows => (Ok (order_by_created_at_desc rows), w)
        | None => (Raise DatabaseError, w)
        end
    else (Ok (order_by_created_at_desc (items w)), w).

Definition view_items (search : string) : M response :=
  (get_connection;;
   rows <- fetch_items search;
   ret (TemplateResponse "items.html" (ItemsContext (item_dict <$> rows) search)))%M.

(** [SELECT * FROM items WHERE id = item_id] then [fetchone()]. *)
Definition fetch_item (item_id : Z) : M (option Items.row) :=
  fun _ w =>
    (Ok (head (filter (fun r => Items.id r = item_id) (items w))), w).

Definition view_item_detail (item_id : Z) : M response :=
  (get_connection;;
   row <- fetch_item item_id;
   match row with
   | None => raise (HTTPException 404)
   | Some r =>
       let columns :=
         [ "id"; "item_type"; "item_name"; "description"; "location";
           "contact_info"; "image_path"; "tag"; "created_at" ] in
       let item := dict (zip columns (Items.to_tuple r)) in
       ret (TemplateResponse "item_detail.html" (ItemContext item))
   end)%M.

(** ** Layer 6: form submission *)

(** The row made of the values of [v], if they fit their columns. *)
Definition fit_columns (v : ItemCreate.t) (id created_at : Z)
  : option Items.row :=
  item_type ← Sql.varchar 20 (ItemCreate.item_type v);
  item_name ← Sql.varchar 100 (ItemCreate.item_name v);
  location ← Sql.varchar 255 (ItemCreate.location v);
  contact_info ← Sql.varchar 100 (ItemCreate.contact_info v);
  tag ← match ItemCreate.tag v with
        | None => Some None
        | Some t => Some <$> Sql.varchar 50 t
        end;
  Some (Items.make id item_type item_name (ItemCreate.description v) location
          contact_info (ItemCreate.image_url v) tag created_at).

(** One of the seven parameters of the [INSERT] is a string that holds a
    NUL character ([None] is sent as [NULL]). *)
Definition has_nul_parameter (v : ItemCreate.t) : bool :=
  let opt o := match o with Some s => PyStr.has_nul s | None => false end in
  PyStr.has_nul (ItemCreate.item_type v)
  || PyStr.has_nul (ItemCreate.item_name v)
  || opt (ItemCreate.description v)
  || PyStr.has_nul (ItemCreate.location v)
  || PyStr.has_nul (ItemCreate.contact_info v)
  || opt (ItemCreate.image_url v)
  || opt (ItemCreate.tag v).

(** The row the [INSERT] of [submit_item] stores. The driver raises
    [ValueError] when a string parameter holds a NUL character, before the
    statement is sent; the server refuses a value that does not fit its
    column. *)
Definition new_row (v : ItemCreate.t) (id created_at : Z)
  : py_result Items.row :=
  if has_nul_parameter v then Raise ValueError
  else match fit_columns v id created_at with
       | Some r => Ok r
       | None => Raise DatabaseError
       end.

Definition execute_insert (v : ItemCreate.t) : M unit :=
  (log (CallInsert v);;
   fun e w =>
     match new_row v (items_id_seq w) (now e) with
     | Ok r => (Ok tt, {| items := items w ++ [r];
                          items_id_seq := items_id_seq w + 1;
                          calls := calls w |})
     | Raise x => (Raise x, w)
     end)%M.

Definition submit_item (item : ItemCreate.t) (image : option UploadFile.t)
  : M response :=
  (item <- match image with
           | Some im =>
               if truthy (UploadFile.filename im) then
                 (image_url <- save_uploaded_image im;
                  ret (ItemCreate.set_image_url image_url item))
               else ret item
           | None => ret item
           end;
   tag <- auto_tag_item (ItemCreate.item_name item)
                        (default "" (ItemCreate.description item));
   let item := ItemCreate.set_tag tag item in
   get_connection;;
   execute_insert item;;
   ret (RedirectResponse "/view-items" 303))%M.

(** ** The routes as the framework serves them *)

Definition post_submit_item (f : form) (image : option UploadFile.t)
  : env -> world -> response * world :=
  serve (item <- lift (as_form f); submit_item item image)%M.

Definition get_view_items (search : string) : env -> world -> response * world :=
  serve (view_items search).

Definition get_item (item_id : Z) : env -> world -> response * world :=
  serve (view_item_detail item_id).

(** ** Notions of the specification *)

Module Spec.

(** The fallback label. *)
Definition fallback : string := "miscellaneous".

(** The two response shapes the specification names: an object with a
    [labels] field, or a list whose first element is an object with a
    [label] field. *)
Definition recognized (j : json) : bool :=
  match j with
  | JObj fields => bool_decide (is_Some (fields !! "labels"))
  | JArr (JObj fields :: _) => bool_decide (is_Some (fields !! "label"))
  | _ => false
  end.

(** The classifier call throws, or answers in no recognized shape. *)
Definition fails_or_unrecognized (r : py_result json) : Prop :=
  match r with
  | Raise _ => True
  | Ok j => recognized j = false
  end.

(** The label a response of a recognized shape ranks first, when that
    label is there and is a string. *)
Definition first_label (j : json) : option string :=
  match j with
  | JObj fields =>
      match fields !! "labels" with
      | Some (JArr (JStr s :: _)) => Some s
      | _ => None
      end
  | JArr (JObj fields :: _) =>
      match fields !! "label" with
      | Some (JStr s) => Some s
      | _ => None
      end
  | _ => None
  end.

(** The classifier keeps to its contract: a response of a recognized
    shape ranks one of the candidate labels first. *)
Definition answers_with_candidate (r : py_result json) : Prop :=
  match r with
  | Raise _ => True
  | Ok j => recognized j = false ∨ ∃ s, first_label j = Some s ∧ s ∈ labels
  end.

(** No image is supplied: no file part, or one without a file name. *)
Definition without_image (image : option UploadFile.t) : Prop :=
  match image with
  | None => True
  | Some im => truthy (UploadFile.filename im) = false
  end.

Definition is_upload (c : call) : bool :=
  match c with CallUpload _ => true | _ => false end.

(** [field] contains [search] as a substring, case ignored. *)
Definition ci_contains (search field : string) : bool :=
  PyStr.contains (PyStr.lower search) (PyStr.lower field).

(** The filter of the listing: name or location contains [search]. *)
Definition matches_search (search : string) (r : Items.row) : bool :=
  ci_contains search (Items.item_name r) || ci_contains search (Items.location r).

(** [search] has none of the characters that [LIKE] reads specially. *)
Fixpoint plain (search : string) : bool :=
  match search with
  | EmptyString => true
  | String c s' =>
      negb (Ascii.eqb c "%") && negb (Ascii.eqb c "_") && negb (Ascii.eqb c "\")
      && plain s'
  end.

(** A required form field is absent. *)
Definition field_absent (f : form) : bool :=
  negb (bool_decide (is_Some (form_item_type f)))
  || negb (bool_decide (is_Some (form_item_name f)))
  || negb (bool_decide (is_Some (form_location f)))
  || negb (bool_decide (is_Some (form_contact_info f))).

(** A required form field is absent or sent empty. *)
Definition field_missing (f : form) : bool :=
  negb (bool_decide (is_Some (form_value (form_item_type f))))
  || negb (bool_decide (is_Some (form_value (form_item_name f))))
  || negb (bool_decide (is_Some (form_value (form_location f))))
  || negb (bool_decide (is_Some (form_value (form_contact_info f)))).

(** The form fails validation as the specification lists it: [item_type]
    not [lost] or [found], [item_name] of a length outside 2..100,
    [location] shorter than 2, or [contact_info] absent. *)
Definition fails_validation (f : form) : bool :=
  negb match form_item_type f with
       | Some t => String.eqb t "lost" || String.eqb t "found"
       | None => false
       end
  || negb match form_item_name f with
          | Some n => (2 <=? String.length n)%nat && (String.length n <=? 100)%nat
          | None => false
          end
  || negb match form_location f with
          | Some l => (2 <=? String.length l)%nat
          | None => false
          end
  || negb (bool_decide (is_Some (form_contact_info f))).

Definition is_client_error (r : response) : bool :=
  match r with
  | ErrorResponse n => (400 <=? n)%Z && (n <? 500)%Z
  | _ => false
  end.

Definition is_error (r : response) : bool :=
  match r with
  | ErrorResponse _ => true
  | _ => false
  end.

End Spec.

(** The string [auto_tag_item] returns for an outcome of the remote call. *)
Definition returned_tag (r : py_result json) : string :=
  match r with
  | Ok j =>
      match top_label j with
      | Ok s => s
      | Raise _ => "miscellaneous"
      end
  | Raise _ => "miscellaneous"
  end.

(** The outcome of the last three steps of [submit_item] (tagging, insert,
    redirect) in closed form, for the item [item] reaching them in the
    world [w]. *)
Definition tagged_and_stored (item : ItemCreate.t) (e : env) (w : world)
  : py_result response * world :=
  let text := ItemCreate.item_name item ++ " "
              ++ default "" (ItemCreate.description item) in
  let item' := ItemCreate.set_tag (returned_tag (classifier e)) item in
  let w1 := record_call (CallClassify text) w in
  if connect e then
    match new_row item' (items_id_seq w) (now e) with
    | Ok r =>
        (Ok (RedirectResponse "/view-items" 303),
         {| items := items w ++ [r];
            items_id_seq := items_id_seq w + 1;
            calls := calls w ++ [CallClassify text; CallInsert item'] |})
    | Raise x => (Raise x, record_call (CallInsert item') w1)
    end
  else (Raise DatabaseError, w1).

(** The tokens of a pattern made of ordinary characters only. *)
Fixpoint literal (s : string) : list Sql.tok :=
  match s with
  | EmptyString => []
  | String c s' => Sql.TLit c :: literal s'
  end.

(** ** Sample requests, answers and tables *)

Module Sample.

Definition empty : world := {| items := []; items_id_seq := 1; calls := [] |}.

Definition wallet : form :=
  {| form_item_type := Some "lost"; form_item_name := Some "Blue Wallet";
     form_description := None; form_location := Some "Library";
     form_contact_info := Some "a@b.com" |}.

(** [item_type] is neither [lost] nor [found]. *)
Definition stolen : form :=
  {| form_item_type := Some "stolen"; form_item_name := Some "Blue Wallet";
     form_description := None; form_location := Some "Library";
     form_contact_info := Some "a@b.com" |}.

(** No [contact_info] field. *)
Definition anonymous : form :=
  {| form_item_type := Some "lost"; form_item_name := Some "Blue Wallet";
     form_description := None; form_location := Some "Library";
     form_contact_info := None |}.

Definition answering (r : py_result json) (t : Z) : env :=
  {| upload := Raise CloudinaryError; classifier := r; connect := true;
     now := t |}.

Definition documents : json :=
  JObj {[ "labels" := JArr [JStr "documents"; JStr "books"] ]}.

Definition wallets : json :=
  JArr [JObj {[ "label" := JStr "Wallets_And_Purses" ]}].

Definition spaceship : json :=
  JObj {[ "labels" := JArr [JStr "Spaceship"] ]}.

Definition row (id : Z) (name loc : string) (t : Z) : Items.row :=
  Items.make id "lost" name None loc "a@b.com" None (Some "miscellaneous") t.

Definition three : world :=
  {| items := [ row 1 "abc" "Hall" 10; row 2 "Blue Wallet" "Library" 30;
                row 3 "keys" "Gym" 20 ];
     items_id_seq := 4; calls := [] |}.

End Sample.

(** ** Notions used for the whole service *)

(** The table as the primary key and the [SERIAL] sequence keep it: ids are
    unique, and every id is below the next value of the sequence. *)
Definition well_formed (w : world) : Prop :=
  NoDup (Items.id <$> items w)
  ∧ Forall (fun r => (Items.id r < items_id_seq w)%Z) (items w).

(** The token a character of a pattern stands for when no backslash is
    involved. *)
Definition tok_of (c : ascii) : Sql.tok :=
  if Ascii.eqb c "%" then Sql.TAny
  else if Ascii.eqb c "_" then Sql.TOne
  else Sql.TLit c.

Fixpoint toks (s : string) : list Sql.tok :=
  match s with
  | EmptyString => []
  | String c s' => tok_of c :: toks s'
  end.

Fixpoint no_backslash (s : string) : bool :=
  match s with
  | EmptyString => true
  | String c s' => negb (Ascii.eqb c "\") && no_backslash s'
  end.

(** The calls a submission may add, in their order: at most one upload,
    then at most one classification, then at most one insert. *)
Definition submission_calls (cs : list call) : Prop :=
  ∃ up cl ins,
    cs = (up ++ cl ++ ins)%list
    ∧ (up = [] ∨ ∃ c, up = [CallUpload c])
    ∧ (cl = [] ∨ ∃ t, cl = [CallClassify t])
    ∧ (ins = [] ∨ ∃ v, ins = [CallInsert v])
    ∧ (ins ≠ [] -> cl ≠ []).

(** The status the framework answers with for an exception that escapes a
    handler (see [serve]). *)
Definition status_of (x : exn) : Z :=
  match x with
  | HTTPException n => n
  | RequestValidationError => 422
  | _ => 500
  end.

(** [text * n] *)
Fixpoint times (text : string) (n : nat) : string :=
  match n with
  | O => EmptyString
  | S n' => text ++ times text n'
  end.

(** * Properties *)

(** ** Strings *)

Lemma lower_char_idempotent c :
  PyStr.lower_char (PyStr.lower_char c) = PyStr.lower_char c.
Proof. destruct c as [[] [] [] [] [] [] [] []]; reflexivity. Qed.

Lemma lower_idempotent s : PyStr.lower (PyStr.lower s) = PyStr.lower s.
Proof.
  induction s as [|c s IH]; simpl; [reflexivity|].
  rewrite lower_char_idempotent, IH. reflexivity.
Qed.

Lemma lower_labels : Forall (fun l => PyStr.lower l = l) labels.
Proof. repeat constructor. Qed.

(** ** The auto-tagger *)

Lemma auto_tag_item_eq n d e w :
  auto_tag_item n d e w
  = (Ok (returned_tag (classifier e)), record_call (CallClassify (n ++ " " ++ d)) w).
Proof.
  unfold auto_tag_item, catch, requests_post_json, bind, log, lift, ret, returned_tag.
  destruct (classifier e) as [j|x]; [|reflexivity].
  destruct (top_label j); reflexivity.
Qed.

Lemma top_label_unrecognized j :
  Spec.recognized j = false -> returned_tag (Ok j) = "miscellaneous".
Proof.
  unfold returned_tag, top_label.
  destruct j as [| | | |l|fields]; simpl; intros H; try reflexivity.
  - destruct l as [|first l]; simpl; [reflexivity|].
    destruct first as [| | |s|l'|fields]; simpl in *; try reflexivity.
    + destruct (PyStr.contains "label" s); reflexivity.
    + destruct (existsb _ l'); reflexivity.
    + rewrite H. reflexivity.
  - rewrite H. simpl. reflexivity.
Qed.

Lemma returned_tag_lower r : PyStr.lower (returned_tag r) = returned_tag r.
Proof.
  destruct r as [j|x]; [|reflexivity]. unfold returned_tag.
  destruct (top_label j) as [s|x] eqn:E; [|reflexivity].
  unfold top_label in E.
  assert (Hl : forall v t, Py.lower v = Ok t -> PyStr.lower t = t).
  { intros [] t Ht; simpl in Ht; try discriminate.
    injection Ht as <-. apply lower_idempotent. }
  destruct j as [| | | |l|fields]; simpl in E;
    try (injection E as <-; reflexivity).
  - destruct l as [|first l]; simpl in E; [discriminate|].
    destruct (Py.contains_key "label" first) as [[]|]; simpl in E;
      try discriminate; [|injection E as <-; reflexivity].
    destruct (Py.getitem_key "label" first); simpl in E; [|discriminate].
    eapply Hl, E.
  - destruct (bool_decide _); simpl in E; [|injection E as <-; reflexivity].
    destruct (fields !! "labels"); simpl in E; [|discriminate].
    destruct (Py.getitem_0 _); simpl in E; [|discriminate].
    eapply Hl, E.
Qed.

(** ** Form submission, step by step *)

(** A row is stored only when no parameter holds a NUL and the values fit
    their columns. *)
Lemma new_row_ok v id t r :
  new_row v id t = Ok r ->
  has_nul_parameter v = false ∧ fit_columns v id t = Some r.
Proof.
  unfold new_row. destruct (has_nul_parameter v); [discriminate|].
  destruct (fit_columns v id t); [|discriminate].
  intros [= <-]. split; reflexivity.
Qed.

(** The row that is stored carries the item's tag and image URL. *)
Lemma new_row_tag v id t r :
  new_row v id t = Ok r ->
  Items.image_path r = ItemCreate.image_url v
  ∧ Items.id r = id ∧ Items.created_at r = t
  ∧ forall tg, ItemCreate.tag v = Some tg ->
      ∃ tg', Sql.varchar 50 tg = Some tg' ∧ Items.tag r = Some tg'.
Proof.
  intros H. apply new_row_ok in H as [_ H]. unfold fit_columns in H.
  destruct (Sql.varchar 20 _); simpl in H; [|discriminate].
  destruct (Sql.varchar 100 (ItemCreate.item_name v)); simpl in H; [|discriminate].
  destruct (Sql.varchar 255 _); simpl in H; [|discriminate].
  destruct (Sql.varchar 100 (ItemCreate.contact_info v)); simpl in H; [|discriminate].
  destruct (ItemCreate.tag v) as [tg|]; simpl in *.
  - destruct (Sql.varchar 50 tg) as [tg'|] eqn:Hv; simpl in H; [|discriminate].
    injection H as <-. simpl. repeat split.
    intros ? [= <-]. exists tg'. split; [assumption|reflexivity].
  - injection H as <-. simpl. repeat split. discriminate.
Qed.

(** What the handler does once the tagging step is reached with [item]
    in a world [w]. *)
Lemma submit_item_tail item e w :
  (tag <- auto_tag_item (ItemCreate.item_name item)
            (default "" (ItemCreate.description item));
   let item := ItemCreate.set_tag tag item in
   get_connection;;
   execute_insert item;;
   ret (RedirectResponse "/view-items" 303))%M e w
  = tagged_and_stored item e w.
Proof.
  unfold tagged_and_stored, bind at 1. rewrite auto_tag_item_eq. cbv zeta.
  unfold execute_insert, get_connection, bind, log, ret. simpl.
  destruct (connect e); [|reflexivity].
  destruct (new_row _ _ _); [|reflexivity].
  rewrite <- app_assoc. reflexivity.
Qed.

Lemma submit_item_eq item image e w :
  submit_item item image e w
  = match image with
    | Some im =>
        if truthy (UploadFile.filename im) then
          let w0 := record_call (CallUpload (UploadFile.file im)) w in
          match upload e with
          | Ok res =>
              tagged_and_stored
                (ItemCreate.set_image_url (default "" (res !! "secure_url")) item)
                e w0
          | Raise x => (Raise x, w0)
          end
        else tagged_and_stored item e w
    | None => tagged_and_stored item e w
    end.
Proof.
  unfold submit_item. unfold bind at 1.
  destruct image as [im|]; [|apply submit_item_tail].
  destruct (truthy (UploadFile.filename im)) eqn:Hf; [|apply submit_item_tail].
  unfold save_uploaded_image. rewrite Hf.
  unfold cloudinary_upload, bind at 1 2 3, log, ret. simpl.
  destruct (upload e) as [res|x]; [|reflexivity].
  apply submit_item_tail.
Qed.

Lemma submit_item_without_image item image e w :
  Spec.without_image image ->
  submit_item item image e w = tagged_and_stored item e w.
Proof.
  intros H. rewrite submit_item_eq. destruct image as [im|]; [|reflexivity].
  simpl in H. rewrite H. reflexivity.
Qed.

Lemma post_submit_item_accepted f image e w item :
  as_form f = Ok item ->
  post_submit_item f image e w = serve (submit_item item image) e w.
Proof.
  intros H. unfold post_submit_item, serve, bind, lift. rewrite H. reflexivity.
Qed.

Lemma post_submit_item_rejected f image e w x :
  as_form f = Raise x ->
  post_submit_item f image e w
  = (ErrorResponse match x with
                   | HTTPException n => n
                   | RequestValidationError => 422
                   | _ => 500
                   end, w).
Proof.
  intros H. unfold post_submit_item, serve, bind, lift. rewrite H.
  destruct x; reflexivity.
Qed.

Lemma as_form_raises f x :
  as_form f = Raise x -> x = RequestValidationError ∨ x = ValidationError.
Proof.
  unfold as_form, ItemCreate.cls.
  destruct (form_value (form_item_type f)), (form_value (form_item_name f)),
    (form_value (form_location f)), (form_value (form_contact_info f));
    try (intros [= <-]; auto).
  destruct (ItemCreate.valid _ _ _ _); intros [= <-]; auto.
Qed.

(** The item built from the form has no image URL and no tag yet. *)
Lemma as_form_unset f item :
  as_form f = Ok item ->
  ItemCreate.image_url item = None ∧ ItemCreate.tag item = None.
Proof.
  unfold as_form, ItemCreate.cls.
  destruct (form_value (form_item_type f)), (form_value (form_item_name f)),
    (form_value (form_location f)), (form_value (form_contact_info f));
    try discriminate.
  destruct (ItemCreate.valid _ _ _ _); [|discriminate].
  intros [= <-]. split; reflexivity.
Qed.

(** A redirect means every step went through and one row was added. *)
Lemma post_submit_item_redirect f image e w u s w' :
  post_submit_item f image e w = (RedirectResponse u s, w') ->
  u = "/view-items" ∧ s = 303%Z ∧
  ∃ item r,
    as_form f = Ok item ∧
    items w' = (items w ++ [r])%list ∧
    (∃ t, Sql.varchar 50 (returned_tag (classifier e)) = Some t
          ∧ Items.tag r = Some t) ∧
    (Spec.without_image image -> Items.image_path r = None).
Proof.
  destruct (as_form f) as [item|x] eqn:Hf.
  2:{ rewrite (post_submit_item_rejected _ _ _ _ _ Hf). discriminate. }
  rewrite (post_submit_item_accepted _ _ _ _ _ Hf). unfold serve.
  assert (Htail : forall it w0,
    match tagged_and_stored it e w0 with
    | (Ok r, w'0) => (r, w'0)
    | (Raise (HTTPException n), w'0) => (ErrorResponse n, w'0)
    | (Raise RequestValidationError, w'0) => (ErrorResponse 422, w'0)
    | (Raise _, w'0) => (ErrorResponse 500, w'0)
    end = (RedirectResponse u s, w') ->
    u = "/view-items" ∧ s = 303%Z ∧
    ∃ r, items w' = (items w0 ++ [r])%list ∧
         (∃ t, Sql.varchar 50 (returned_tag (classifier e)) = Some t
               ∧ Items.tag r = Some t) ∧
         Items.image_path r = ItemCreate.image_url it).
  { intros it w0. unfold tagged_and_stored.
    destruct (connect e); [|discriminate].
    destruct (new_row _ _ _) as [r|x] eqn:Hr; [|destruct x; discriminate].
    simpl. intros H. inversion H; subst. do 2 (split; [reflexivity|]).
    exists r. split; [reflexivity|].
    apply new_row_tag in Hr as (Hi & _ & _ & Ht). split; [|assumption].
    apply Ht. reflexivity. }
  rewrite submit_item_eq.
  destruct image as [im|].
  - destruct (truthy (UploadFile.filename im)) eqn:Hn.
    + cbv zeta. destruct (upload e) as [res|x].
      * intros H. apply Htail in H as (-> & -> & r & Hi & Ht & _).
        do 2 (split; [reflexivity|]). exists item, r.
        repeat split; try assumption. simpl. rewrite Hn. discriminate.
      * destruct x; discriminate.
    + intros H. apply Htail in H as (-> & -> & r & Hi & Ht & Hp).
      do 2 (split; [reflexivity|]). exists item, r.
      repeat split; try assumption. intros _. rewrite Hp.
      apply (as_form_unset _ _ Hf).
  - intros H. apply Htail in H as (-> & -> & r & Hi & Ht & Hp).
    do 2 (split; [reflexivity|]). exists item, r.
    repeat split; try assumption. intros _. rewrite Hp.
    apply (as_form_unset _ _ Hf).
Qed.

(** ** The auto-tagger: failure containment and parsing *)

Lemma returned_tag_fallback r :
  Spec.fails_or_unrecognized r -> returned_tag r = Spec.fallback.
Proof.
  destruct r as [j|x]; simpl; [|reflexivity]. apply top_label_unrecognized.
Qed.

Lemma top_label_labels fields v s :
  fields !! "labels" = Some v -> Py.getitem_0 v = Ok (JStr s) ->
  top_label (JObj fields) = Ok (PyStr.lower s).
Proof.
  intros Hf Hv. unfold top_label. simpl.
  rewrite Hf, bool_decide_eq_true_2 by eauto. simpl. rewrite Hv. reflexivity.
Qed.

Lemma top_label_label fields rest s :
  fields !! "label" = Some (JStr s) ->
  top_label (JArr (JObj fields :: rest)) = Ok (PyStr.lower s).
Proof.
  intros Hf. unfold top_label. simpl.
  rewrite Hf, bool_decide_eq_true_2 by eauto. simpl. reflexivity.
Qed.

Lemma returned_tag_first_label j s :
  Spec.first_label j = Some s -> returned_tag (Ok j) = PyStr.lower s.
Proof.
  unfold Spec.first_label, returned_tag.
  destruct j as [| | | |l|fields]; try discriminate.
  - destruct l as [|[| | | | |fields] rest]; try discriminate.
    destruct (fields !! "label") as [[| | |s'| |]|] eqn:Hf; try discriminate.
    intros [= ->]. rewrite (top_label_label _ _ _ Hf). reflexivity.
  - destruct (fields !! "labels") as [[| | | |[|[| | |s'| |] rest]|]|] eqn:Hf;
      try discriminate.
    intros [= ->]. rewrite (top_label_labels _ _ s Hf); reflexivity.
Qed.

(** C1. When the remote classification call raises, or its response is of
    no recognized shape, [auto_tag_item] returns ["miscellaneous"] (a
    value, not an exception); and a submission served under such an answer
    that is stored is stored with the tag ["miscellaneous"]. *)
Theorem auto_tag_item_falls_back n d e w
  (H : Spec.fails_or_unrecognized (classifier e)) :
  fst (auto_tag_item n d e w) = Ok "miscellaneous"
  ∧ forall f image u s w',
      post_submit_item f image e w = (RedirectResponse u s, w') ->
      ∃ r, items w' = (items w ++ [r])%list
           ∧ Items.tag r = Some "miscellaneous".
Proof.
  split.
  - rewrite auto_tag_item_eq. simpl. f_equal. apply returned_tag_fallback, H.
  - intros f image u s w' Hs.
    apply post_submit_item_redirect in Hs as (_ & _ & item & r & _ & Hi & Ht & _).
    exists r. split; [assumption|].
    destruct Ht as (t & Hv & ->). rewrite (returned_tag_fallback _ H) in Hv.
    vm_compute in Hv. congruence.
Qed.

Lemma auto_tag_item_falls_back_witness :
  fst (auto_tag_item "Blue Wallet" ""
         (Sample.answering (Raise RequestException) 5) Sample.empty)
  = Ok "miscellaneous"
  ∧ ∃ r, items (snd (post_submit_item Sample.wallet None
                       (Sample.answering (Ok (JStr "label")) 5) Sample.empty))
         = [r]
         ∧ Items.tag r = Some "miscellaneous".
Proof.
  split.
  - apply (auto_tag_item_falls_back "Blue Wallet" ""
             (Sample.answering (Raise RequestException) 5) Sample.empty I).
  - apply (proj2 (auto_tag_item_falls_back "" ""
                    (Sample.answering (Ok (JStr "label")) 5) Sample.empty
                    eq_refl)
             Sample.wallet None "/view-items" 303%Z).
    vm_compute. reflexivity.
Defined.

(** C9. An empty list as classifier response: the subscript [result[0]]
    raises [IndexError] inside the [try] block, and [auto_tag_item] still
    returns ["miscellaneous"]. *)
Theorem auto_tag_item_empty_list n d e w (H : classifier e = Ok (JArr [])) :
  top_label (JArr []) = Raise IndexError
  ∧ fst (auto_tag_item n d e w) = Ok "miscellaneous".
Proof.
  split; [reflexivity|]. rewrite auto_tag_item_eq, H. reflexivity.
Qed.

Lemma auto_tag_item_empty_list_witness :
  top_label (JArr []) = Raise IndexError
  ∧ fst (auto_tag_item "keys" "on a red ring"
           (Sample.answering (Ok (JArr [])) 7) Sample.three)
    = Ok "miscellaneous".
Proof.
  apply (auto_tag_item_empty_list "keys" "on a red ring"
           (Sample.answering (Ok (JArr [])) 7) Sample.three eq_refl).
Defined.

(** C10. Whatever the classifier answers, [auto_tag_item] returns a string,
    and that string is in lower case already: lowering it again changes
    nothing. *)
Theorem auto_tag_item_lowercase n d e w :
  ∃ s, fst (auto_tag_item n d e w) = Ok s ∧ PyStr.lower s = s.
Proof.
  exists (returned_tag (classifier e)). rewrite auto_tag_item_eq.
  split; [reflexivity|apply returned_tag_lower].
Qed.

(** C4. A response object with a [labels] field gives the first element of
    that field in lower case; a response list whose first element is an
    object with a [label] field gives that label in lower case; and under
    the response [{labels: ["documents", "books"]}] a stored submission
    carries the tag ["documents"]. *)
Theorem auto_tag_item_top_label n d e w :
  (forall fields v s,
      classifier e = Ok (JObj fields) ->
      fields !! "labels" = Some v -> Py.getitem_0 v = Ok (JStr s) ->
      fst (auto_tag_item n d e w) = Ok (PyStr.lower s))
  ∧ (forall fields rest s,
      classifier e = Ok (JArr (JObj fields :: rest)) ->
      fields !! "label" = Some (JStr s) ->
      fst (auto_tag_item n d e w) = Ok (PyStr.lower s))
  ∧ (classifier e = Ok Sample.documents ->
     forall f image u s w',
       post_submit_item f image e w = (RedirectResponse u s, w') ->
       ∃ r, items w' = (items w ++ [r])%list ∧ Items.tag r = Some "documents").
Proof.
  rewrite auto_tag_item_eq. simpl. repeat split.
  - intros fields v s -> Hf Hv. simpl.
    rewrite (top_label_labels _ _ _ Hf Hv). reflexivity.
  - intros fields rest s -> Hf. simpl.
    rewrite (top_label_label _ _ _ Hf). reflexivity.
  - intros He f image u s w' Hs.
    apply post_submit_item_redirect in Hs as (_ & _ & item & r & _ & Hi & Ht & _).
    exists r. split; [assumption|].
    destruct Ht as (t & Hv & ->). rewrite He in Hv. vm_compute in Hv. congruence.
Qed.

Lemma auto_tag_item_top_label_witness :
  fst (auto_tag_item "Blue Wallet" "" (Sample.answering (Ok Sample.wallets) 5)
         Sample.empty)
  = Ok "wallets_and_purses"
  ∧ fst (auto_tag_item "Passport" "" (Sample.answering (Ok Sample.spaceship) 5)
           Sample.empty)
    = Ok "spaceship"
  ∧ ∃ r, items (snd (post_submit_item Sample.wallet None
                       (Sample.answering (Ok Sample.documents) 5) Sample.empty))
         = [r]
         ∧ Items.tag r = Some "documents".
Proof.
  split; [|split].
  - apply (proj1 (proj2 (auto_tag_item_top_label "Blue Wallet" ""
             (Sample.answering (Ok Sample.wallets) 5) Sample.empty))
             {[ "label" := JStr "Wallets_And_Purses" ]} [] "Wallets_And_Purses"
             eq_refl eq_refl).
  - apply (proj1 (auto_tag_item_top_label "Passport" ""
             (Sample.answering (Ok Sample.spaceship) 5) Sample.empty)
             {[ "labels" := JArr [JStr "Spaceship"] ]} (JArr [JStr "Spaceship"])
             "Spaceship" eq_refl eq_refl eq_refl).
  - apply (proj2 (proj2 (auto_tag_item_top_label "" ""
             (Sample.answering (Ok Sample.documents) 5) Sample.empty))
             eq_refl Sample.wallet None "/view-items" 303%Z).
    vm_compute. reflexivity.
Defined.

(** ** The stored tag *)

Lemma labels_fit : Forall (fun l => Sql.varchar 50 l = Some l) labels.
Proof. repeat constructor. Qed.

Lemma returned_tag_candidate r :
  Spec.answers_with_candidate r -> returned_tag r ∈ labels.
Proof.
  assert (Hm : "miscellaneous" ∈ labels) by (vm_compute; set_solver).
  destruct r as [j|x]; [|intros _; exact Hm].
  intros [Hu|(s & Hs & Hin)].
  - rewrite (top_label_unrecognized _ Hu). exact Hm.
  - rewrite (returned_tag_first_label _ _ Hs).
    pose proof lower_labels as Hl. rewrite Forall_forall in Hl.
    rewrite (Hl _ Hin). exact Hin.
Qed.

(** C3 as the specification words it fails: a label outside the
    candidate list is stored as it comes, in lower case. *)
Lemma stored_tag_outside_candidates :
  ¬ (forall f image e w u s w' r,
        post_submit_item f image e w = (RedirectResponse u s, w') ->
        last (items w') = Some r ->
        ∃ t, Items.tag r = Some t ∧ (t ∈ labels ∨ t = "miscellaneous")).
Proof.
  intros H.
  destruct (H Sample.wallet None (Sample.answering (Ok Sample.spaceship) 5)
              Sample.empty _ _ _ _ eq_refl eq_refl) as (t & Ht & Hin).
  vm_compute in Ht. injection Ht as <-.
  destruct Hin as [Hin|Hin]; [|discriminate].
  revert Hin. apply (bool_decide_eq_false_1 _). vm_compute. reflexivity.
Qed.

(** C3, amended. Every stored submission has a tag that is not null; the
    tag is one of the candidate labels (["miscellaneous"] is one of them)
    provided the classifier call fails, or answers in no recognized shape,
    or ranks one of the candidate labels first. The code itself stores the
    first label of the response in lower case without comparing it with
    the candidates. *)
Theorem stored_tag_present f image e w u s w'
  (H : post_submit_item f image e w = (RedirectResponse u s, w')) :
  ∃ r t, items w' = (items w ++ [r])%list
         ∧ Items.tag r = Some t
         ∧ (Spec.answers_with_candidate (classifier e) -> t ∈ labels).
Proof.
  apply post_submit_item_redirect in H as (_ & _ & item & r & _ & Hi & Ht & _).
  destruct Ht as (t & Hv & Ht). exists r, t. repeat split; try assumption.
  intros Hc. apply returned_tag_candidate in Hc.
  pose proof labels_fit as Hl. rewrite Forall_forall in Hl.
  rewrite (Hl _ Hc) in Hv. congruence.
Qed.

Lemma stored_tag_present_witness :
  ∃ r t, items (snd (post_submit_item Sample.wallet None
                       (Sample.answering (Ok Sample.documents) 5) Sample.empty))
         = ([] ++ [r])%list
         ∧ Items.tag r = Some t
         ∧ (Spec.answers_with_candidate (Ok Sample.documents) -> t ∈ labels).
Proof.
  apply (stored_tag_present Sample.wallet None
           (Sample.answering (Ok Sample.documents) 5) Sample.empty
           "/view-items" 303%Z _ eq_refl).
Defined.

(** ** Submissions without an image *)

Lemma tagged_and_stored_calls item e w :
  ∃ cs, calls (snd (tagged_and_stored item e w)) = (calls w ++ cs)%list
        ∧ Forall (fun c => Spec.is_upload c = false) cs.
Proof.
  unfold tagged_and_stored. cbv zeta.
  destruct (connect e); [destruct (new_row _ _ _)|]; simpl.
  - eexists. split; [reflexivity|]. repeat constructor.
  - rewrite <- app_assoc. eexists. split; [reflexivity|]. repeat constructor.
  - eexists. split; [reflexivity|]. repeat constructor.
Qed.

Lemma serve_snd h e w : snd (serve h e w) = snd (h e w).
Proof.
  unfold serve. destruct (h e w) as [[r|x] w']; [reflexivity|].
  destruct x; reflexivity.
Qed.

(** C2 as the specification words it fails: without an image the
    column [image_path] is stored as null, not as the empty string. *)
Lemma stored_image_path_not_empty_string :
  ¬ (forall f image e w u s w' r,
        Spec.without_image image ->
        post_submit_item f image e w = (RedirectResponse u s, w') ->
        last (items w') = Some r ->
        Items.image_path r = Some "").
Proof.
  intros H.
  specialize (H Sample.wallet None (Sample.answering (Ok Sample.documents) 5)
                Sample.empty _ _ _ _ I eq_refl eq_refl).
  vm_compute in H. discriminate.
Qed.

(** C2, amended. A submission that supplies no image file, or a file with
    an empty file name, makes no upload call to the image host, and when it
    is stored its [image_path] is null. *)
Theorem submit_without_image f image e w (H : Spec.without_image image) :
  (∃ cs, calls (snd (post_submit_item f image e w)) = (calls w ++ cs)%list
         ∧ Forall (fun c => Spec.is_upload c = false) cs)
  ∧ forall u s w',
      post_submit_item f image e w = (RedirectResponse u s, w') ->
      ∃ r, items w' = (items w ++ [r])%list ∧ Items.image_path r = None.
Proof.
  split.
  - destruct (as_form f) as [item|x] eqn:Hf.
    + rewrite (post_submit_item_accepted _ _ _ _ _ Hf), serve_snd.
      rewrite (submit_item_without_image _ _ _ _ H).
      apply tagged_and_stored_calls.
    + rewrite (post_submit_item_rejected _ _ _ _ _ Hf). simpl.
      exists []. split; [rewrite app_nil_r; reflexivity|constructor].
  - intros u s w' Hs.
    apply post_submit_item_redirect in Hs as (_ & _ & item & r & _ & Hi & _ & Hp).
    exists r. split; [assumption|apply Hp, H].
Qed.

Lemma submit_without_image_witness :
  (∃ cs, calls (snd (post_submit_item Sample.wallet
                       (Some (UploadFile.make (Some "") ""))
                       (Sample.answering (Ok Sample.documents) 5) Sample.three))
         = ([] ++ cs)%list
         ∧ Forall (fun c => Spec.is_upload c = false) cs)
  ∧ ∃ r, items (snd (post_submit_item Sample.wallet
                       (Some (UploadFile.make (Some "") ""))
                       (Sample.answering (Ok Sample.documents) 5) Sample.three))
         = (items Sample.three ++ [r])%list
         ∧ Items.image_path r = None.
Proof.
  destruct (submit_without_image Sample.wallet
              (Some (UploadFile.make (Some "") ""))
              (Sample.answering (Ok Sample.documents) 5) Sample.three eq_refl)
    as [Hc Hs].
  split; [exact Hc|].
  apply (Hs "/view-items" 303%Z). vm_compute. reflexivity.
Defined.

(** ** Validation *)

Lemma form_value_Some o x : form_value o = Some x -> o = Some x ∧ x ≠ "".
Proof. destruct o as [[|c s]|]; simpl; intros [= <-]; split; congruence. Qed.

Lemma as_form_fails f :
  Spec.fails_validation f = true ->
  as_form f = Raise RequestValidationError
  ∨ (Spec.field_absent f = false ∧ as_form f = Raise ValidationError).
Proof.
  unfold Spec.fails_validation, Spec.field_absent, as_form, ItemCreate.cls.
  destruct (form_value (form_item_type f)) as [ty|] eqn:E1,
    (form_value (form_item_name f)) as [nm|] eqn:E2,
    (form_value (form_location f)) as [loc|] eqn:E3,
    (form_value (form_contact_info f)) as [ci|] eqn:E4;
    try (left; reflexivity).
  apply form_value_Some in E1 as [-> _]. apply form_value_Some in E2 as [-> _].
  apply form_value_Some in E3 as [-> _]. apply form_value_Some in E4 as [-> _].
  intros H. right. split; [reflexivity|].
  destruct (ItemCreate.valid ty nm (form_value (form_description f)) loc) eqn:Hv;
    [|reflexivity].
  unfold ItemCreate.valid in Hv. rewrite !andb_true_iff in Hv.
  destruct Hv as ((((H1 & H2) & H3) & _) & H5).
  rewrite H1, H2, H3, H5 in H. discriminate.
Qed.

(** C6 as the specification words it fails: a value that breaks a
    field constraint is answered with status 500, which is not a client
    error. *)
Lemma invalid_value_not_client_error :
  ¬ (forall f image e w,
        Spec.fails_validation f = true ->
        Spec.is_client_error (fst (post_submit_item f image e w)) = true).
Proof.
  intros H.
  specialize (H Sample.stolen None (Sample.answering (Ok Sample.documents) 5)
                Sample.empty eq_refl).
  vm_compute in H. discriminate.
Qed.

(** C6, amended. A submission whose form fields fail validation is
    answered with an error, and nothing has happened by then: no image
    upload, no classifier call and no insert (the world is the one before
    the request). The error is the client error 422 when a required field
    is absent. *)
Theorem invalid_submission_rejected f image e w
  (H : Spec.fails_validation f = true) :
  ∃ n, post_submit_item f image e w = (ErrorResponse n, w)
       ∧ (Spec.field_absent f = true -> n = 422%Z).
Proof.
  destruct (as_form_fails f H) as [Hf|[Ha Hf]];
    rewrite (post_submit_item_rejected _ _ _ _ _ Hf); eexists;
    (split; [reflexivity|]).
  - reflexivity.
  - rewrite Ha. discriminate.
Qed.

Lemma invalid_submission_rejected_witness :
  ∃ n, post_submit_item Sample.anonymous
         (Some (UploadFile.make (Some "photo.png") "89504e47"))
         (Sample.answering (Ok Sample.documents) 5) Sample.three
       = (ErrorResponse n, Sample.three)
       ∧ (Spec.field_absent Sample.anonymous = true -> n = 422%Z).
Proof.
  apply (invalid_submission_rejected Sample.anonymous
           (Some (UploadFile.make (Some "photo.png") "89504e47"))
           (Sample.answering (Ok Sample.documents) 5) Sample.three eq_refl).
Defined.

(** ** The redirect *)




(** ** The detail view *)

Lemma fetch_first_by_id (rows : list Items.row) r :
  NoDup (Items.id <$> rows) -> r ∈ rows ->
  head (filter (fun x => Items.id x = Items.id r) rows) = Some r.
Proof.
  induction rows as [|x rows IH]; intros Hnd Hin.
  - inversion Hin.
  - rewrite fmap_cons in Hnd. apply NoDup_cons in Hnd as [Hx Hnd].
    rewrite filter_cons. destruct (decide (Items.id x = Items.id r)) as [He|Hne].
    + simpl. f_equal. apply elem_of_cons in Hin as [->|Hin]; [reflexivity|].
      exfalso. apply Hx. rewrite He. apply list_elem_of_fmap. eauto.
    + apply elem_of_cons in Hin as [->|Hin]; [congruence|]. auto.
Qed.

Lemma fetch_none_by_id (rows : list Items.row) item_id :
  Forall (fun r => Items.id r ≠ item_id) rows ->
  filter (fun x => Items.id x = item_id) rows = [].
Proof.
  induction 1 as [|x rows Hx _ IH]; [reflexivity|].
  rewrite filter_cons. destruct (decide (Items.id x = item_id)); [contradiction|].
  exact IH.
Qed.

(** C7. With the database reachable: the detail view answers 404 when no
    row has the id; when a row has it (ids being unique, as the primary key
    has them) the view is rendered on exactly the stored fields of that
    row, one entry for each of the nine columns and no other entry. *)
Theorem item_detail_lookup item_id e w (Hdb : connect e = true) :
  (Forall (fun r => Items.id r ≠ item_id) (items w) ->
   get_item item_id e w = (ErrorResponse 404, w))
  ∧ forall r,
      NoDup (Items.id <$> items w) -> r ∈ items w -> Items.id r = item_id ->
      ∃ item,
        get_item item_id e w
        = (TemplateResponse "item_detail.html" (ItemContext item), w)
        ∧ item !! "id" = Some (Sql.Int (Items.id r))
        ∧ item !! "item_type" = Some (Sql.Text (Items.item_type r))
        ∧ item !! "item_name" = Some (Sql.Text (Items.item_name r))
        ∧ item !! "description" = Some (Sql.of_text (Items.description r))
        ∧ item !! "location" = Some (Sql.Text (Items.location r))
        ∧ item !! "contact_info" = Some (Sql.Text (Items.contact_info r))
        ∧ item !! "image_path" = Some (Sql.of_text (Items.image_path r))
        ∧ item !! "tag" = Some (Sql.of_text (Items.tag r))
        ∧ item !! "created_at" = Some (Sql.Timestamp (Items.created_at r))
        ∧ forall k, k ∉ Items.columns -> item !! k = None.
Proof.
  unfold get_item, serve, view_item_detail, get_connection, fetch_item, bind,
    raise, ret.
  rewrite Hdb. split.
  - intros Hno. rewrite (fetch_none_by_id _ _ Hno). reflexivity.
  - intros r Hnd Hin <-. rewrite (fetch_first_by_id _ _ Hnd Hin).
    eexists. split; [reflexivity|].
    unfold dict, Items.to_tuple. cbn [zip zip_with foldl fst snd].
    repeat (split; [by simplify_map_eq|]).
    intros k Hk. unfold Items.columns in Hk.
    rewrite !not_elem_of_cons in Hk. destruct_and!.
    rewrite !lookup_insert_ne by congruence. apply lookup_empty.
Qed.

Lemma item_detail_lookup_witness :
  get_item 9 (Sample.answering (Raise RequestException) 50) Sample.three
  = (ErrorResponse 404, Sample.three)
  ∧ ∃ item,
      get_item 2 (Sample.answering (Raise RequestException) 50) Sample.three
      = (TemplateResponse "item_detail.html" (ItemContext item), Sample.three)
      ∧ item !! "item_name" = Some (Sql.Text "Blue Wallet")
      ∧ item !! "image_path" = Some Sql.Null.
Proof.
  split.
  - apply (proj1 (item_detail_lookup 9
                    (Sample.answering (Raise RequestException) 50) Sample.three
                    eq_refl)).
    repeat constructor; discriminate.
  - destruct (proj2 (item_detail_lookup 2
                       (Sample.answering (Raise RequestException) 50)
                       Sample.three eq_refl)
                (Sample.row 2 "Blue Wallet" "Library" 30))
      as (item & Hr & _ & _ & Hn & _ & _ & _ & Hp & _).
    + apply (bool_decide_eq_true_1 _). reflexivity.
    + apply list_elem_of_further, list_elem_of_here.
    + reflexivity.
    + exists item. repeat split; assumption.
Defined.

(** ** The listing *)

Lemma lower_char_special c :
  Ascii.eqb (PyStr.lower_char c) "%" = Ascii.eqb c "%"
  ∧ Ascii.eqb (PyStr.lower_char c) "_" = Ascii.eqb c "_"
  ∧ Ascii.eqb (PyStr.lower_char c) "\" = Ascii.eqb c "\".
Proof. destruct c as [[] [] [] [] [] [] [] []]; repeat split. Qed.

Lemma lower_plain s : Spec.plain s = true -> Spec.plain (PyStr.lower s) = true.
Proof.
  induction s as [|c s IH]; simpl; [reflexivity|].
  destruct (lower_char_special c) as (-> & -> & ->).
  rewrite !andb_true_iff. intros (Hc & Hs). split; [exact Hc|apply IH, Hs].
Qed.

Lemma lower_append a b :
  PyStr.lower (a ++ b) = PyStr.lower a ++ PyStr.lower b.
Proof. induction a as [|c a IH]; simpl; [reflexivity|]. rewrite IH. reflexivity. Qed.

Lemma tokens_plain s rest ts :
  Spec.plain s = true -> Sql.tokens rest = Some ts ->
  Sql.tokens (s ++ rest) = Some (literal s ++ ts)%list.
Proof.
  intros Hs Hrest. induction s as [|c s IH]; simpl in *; [exact Hrest|].
  rewrite !andb_true_iff, !negb_true_iff in Hs.
  destruct Hs as (((-> & ->) & ->) & Hs). rewrite (IH Hs). reflexivity.
Qed.

Lemma tokens_substring_pattern s :
  Spec.plain s = true ->
  Sql.tokens ("%" ++ s ++ "%") = Some (Sql.TAny :: literal s ++ [Sql.TAny])%list.
Proof.
  intros Hs. change ("%" ++ s ++ "%") with (String "%" (s ++ "%")).
  cbn [Sql.tokens]. change (Ascii.eqb "%" "%") with true. cbv iota.
  rewrite (tokens_plain s "%" [Sql.TAny] Hs); reflexivity.
Qed.

Lemma matches_any t : Sql.matches [Sql.TAny] t = true.
Proof. induction t as [|c t IH]; [reflexivity|]. simpl in *. rewrite IH. reflexivity. Qed.

Lemma matches_literal_any p t :
  Sql.matches (literal p ++ [Sql.TAny]) t = PyStr.startswith p t.
Proof.
  revert t. induction p as [|a p IH]; intros t.
  - destruct t; apply matches_any.
  - destruct t as [|b t]; [reflexivity|].
    cbn [literal app Sql.matches PyStr.startswith]. rewrite IH. reflexivity.
Qed.

Lemma matches_any_cons ts t :
  Sql.matches (Sql.TAny :: ts) t
  = Sql.matches ts t
    || match t with
       | EmptyString => false
       | String _ t' => Sql.matches (Sql.TAny :: ts) t'
       end.
Proof. destruct t; reflexivity. Qed.

Lemma matches_substring p t :
  Sql.matches (Sql.TAny :: literal p ++ [Sql.TAny]) t = PyStr.contains p t.
Proof.
  induction t as [|c t IH]; rewrite matches_any_cons, matches_literal_any.
  - reflexivity.
  - rewrite IH. reflexivity.
Qed.

(** With a search text of ordinary characters, the [ILIKE] test of
    [view_items] is the substring test, case ignored. *)
Lemma ilike_substring search text :
  Spec.plain search = true ->
  Sql.ilike text ("%" ++ search ++ "%") = Some (Spec.ci_contains search text).
Proof.
  intros Hs. unfold Sql.ilike, Sql.like, Spec.ci_contains.
  rewrite !lower_append. change (PyStr.lower "%") with "%".
  rewrite (tokens_substring_pattern _ (lower_plain _ Hs)). simpl.
  rewrite <- matches_substring. reflexivity.
Qed.

Lemma select_where_filter cond (keep : Items.row -> bool) rows :
  (forall r, cond r = Some (keep r)) ->
  select_where cond rows = Some (filter (fun r => keep r = true) rows).
Proof.
  intros Hc. induction rows as [|r rows IH]; [reflexivity|].
  simpl. rewrite Hc, IH. simpl. rewrite filter_cons.
  destruct (keep r); simpl; reflexivity.
Qed.

Lemma newer_first_total : Total newer_first.
Proof. intros a b. unfold newer_first. lia. Qed.

(** C5 as the specification words it fails: the search text is read
    as a [LIKE] pattern, so [a_c] finds the item named [abc], which does
    not contain it. *)
Lemma search_is_a_pattern :
  ¬ (forall search e w,
        connect e = true -> search ≠ "" ->
        ∃ rows,
          get_view_items search e w
          = (TemplateResponse "items.html"
               (ItemsContext (item_dict <$> rows) search), w)
          ∧ Sorted newer_first rows
          ∧ rows ≡ₚ filter (fun r => Spec.matches_search search r = true)
                      (items w)).
Proof.
  intros H.
  destruct (H "a_c" (Sample.answering (Raise RequestException) 50) Sample.three
              eq_refl) as (rows & Hr & _ & Hp); [discriminate|].
  change (filter _ (items Sample.three)) with (@nil Items.row) in Hp.
  apply Permutation_nil_r in Hp. subst rows.
  vm_compute in Hr. discriminate.
Qed.

Lemma has_nul_pattern search :
  PyStr.has_nul ("%" ++ search ++ "%") = PyStr.has_nul search.
Proof.
  assert (H : PyStr.has_nul (search ++ "%") = PyStr.has_nul search).
  { induction search as [|c s IH]; [reflexivity|].
    simpl. rewrite IH. reflexivity. }
  change ("%" ++ search ++ "%") with (String "%" (search ++ "%")).
  simpl. exact H.
Qed.

(** C5, amended. With the database reachable and a search text that has
    none of the characters [%], [_], backslash and NUL: the listing is
    rendered on rows in descending order of [created_at]; these are all the
    rows of the table when the search text is empty, and otherwise exactly
    the rows whose [item_name] or [location] contains the search text as a
    substring, case ignored. *)
Theorem listing_search search e w
  (Hdb : connect e = true) (Hplain : Spec.plain search = true)
  (Hnul : PyStr.has_nul search = false) :
  ∃ rows,
    get_view_items search e w
    = (TemplateResponse "items.html" (ItemsContext (item_dict <$> rows) search), w)
    ∧ Sorted newer_first rows
    ∧ (search = "" -> rows ≡ₚ items w)
    ∧ (search ≠ "" ->
       rows ≡ₚ filter (fun r => Spec.matches_search search r = true) (items w)).
Proof.
  unfold get_view_items, serve, view_items, get_connection, fetch_items, bind, ret.
  rewrite Hdb. destruct search as [|c search].
  - simpl. eexists. split; [reflexivity|]. split; [apply Sorted_merge_sort, newer_first_total|].
    split; [intros _; apply merge_sort_Permutation|congruence].
  - cbn [truthy]. rewrite has_nul_pattern, Hnul.
    rewrite (select_where_filter _ (Spec.matches_search (String c search))).
    + eexists. split; [reflexivity|]. split; [apply Sorted_merge_sort, newer_first_total|].
      split; [discriminate|intros _; apply merge_sort_Permutation].
    + intros r. unfold where_search, Spec.matches_search.
      rewrite !(ilike_substring _ _ Hplain). reflexivity.
Qed.

Lemma listing_search_witness :
  ∃ rows,
    get_view_items "WALLET" (Sample.answering (Raise RequestException) 50)
      Sample.three
    = (TemplateResponse "items.html" (ItemsContext (item_dict <$> rows) "WALLET"),
       Sample.three)
    ∧ Sorted newer_first rows
    ∧ rows ≡ₚ [Sample.row 2 "Blue Wallet" "Library" 30].
Proof.
  destruct (listing_search "WALLET" (Sample.answering (Raise RequestException) 50)
              Sample.three eq_refl eq_refl eq_refl) as (rows & Hr & Hs & _ & Hp).
  exists rows. repeat split; [exact Hr|exact Hs|].
  apply Hp. discriminate.
Defined.

(** * Further properties of the service *)

(** ** What a submission stores *)

Lemma serve_status h e w :
  serve h e w
  = match h e w with
    | (Ok r, w') => (r, w')
    | (Raise x, w') => (ErrorResponse (status_of x), w')
    end.
Proof.
  unfold serve. destruct (h e w) as [[r|x] w']; [reflexivity|].
  destruct x; reflexivity.
Qed.

Lemma varchar_fits n s : (String.length s <= n)%nat -> Sql.varchar n s = Some s.
Proof.
  intros H. unfold Sql.varchar.
  rewrite (proj2 (Nat.leb_le _ _) H). reflexivity.
Qed.

Lemma new_row_raises v id t x :
  new_row v id t = Raise x -> status_of x = 500%Z.
Proof.
  unfold new_row. destruct (has_nul_parameter v); [intros [= <-]; reflexivity|].
  destruct (fit_columns v id t); [discriminate|intros [= <-]; reflexivity].
Qed.

Lemma new_row_fields v id t r :
  new_row v id t = Ok r ->
  Items.id r = id ∧ Items.created_at r = t
  ∧ Sql.varchar 20 (ItemCreate.item_type v) = Some (Items.item_type r)
  ∧ Sql.varchar 100 (ItemCreate.item_name v) = Some (Items.item_name r)
  ∧ Items.description r = ItemCreate.description v
  ∧ Sql.varchar 255 (ItemCreate.location v) = Some (Items.location r)
  ∧ Sql.varchar 100 (ItemCreate.contact_info v) = Some (Items.contact_info r)
  ∧ Items.image_path r = ItemCreate.image_url v.
Proof.
  intros H. apply new_row_ok in H as [_ H]. unfold fit_columns in H.
  destruct (Sql.varchar 20 _); simpl in H; [|discriminate].
  destruct (Sql.varchar 100 (ItemCreate.item_name v)); simpl in H; [|discriminate].
  destruct (Sql.varchar 255 _); simpl in H; [|discriminate].
  destruct (Sql.varchar 100 (ItemCreate.contact_info v)); simpl in H; [|discriminate].
  destruct (match ItemCreate.tag v with
            | Some t0 => Some <$> Sql.varchar 50 t0
            | None => Some None
            end); simpl in H; [|discriminate].
  injection H as <-. simpl. repeat split.
Qed.

Lemma as_form_ok f item :
  as_form f = Ok item ->
  ∃ ty nm loc ci,
    form_item_type f = Some ty ∧ form_item_name f = Some nm
    ∧ form_location f = Some loc ∧ form_contact_info f = Some ci
    ∧ ci ≠ ""
    ∧ ItemCreate.valid ty nm (form_value (form_description f)) loc = true
    ∧ item = ItemCreate.make ty nm (form_value (form_description f)) loc ci
               None None.
Proof.
  unfold as_form, ItemCreate.cls.
  destruct (form_value (form_item_type f)) as [ty|] eqn:E1,
    (form_value (form_item_name f)) as [nm|] eqn:E2,
    (form_value (form_location f)) as [loc|] eqn:E3,
    (form_value (form_contact_info f)) as [ci|] eqn:E4;
    try discriminate.
  apply form_value_Some in E1 as [E1 _]. apply form_value_Some in E2 as [E2 _].
  apply form_value_Some in E3 as [E3 _]. apply form_value_Some in E4 as [E4 Hci].
  destruct (ItemCreate.valid ty nm (form_value (form_description f)) loc) eqn:Hv;
    [|discriminate].
  intros [= <-]. exists ty, nm, loc, ci. repeat split; assumption.
Qed.

Lemma valid_facts ty nm d loc :
  ItemCreate.valid ty nm d loc = true ->
  (ty = "lost" ∨ ty = "found")
  ∧ (2 <= String.length nm)%nat ∧ (String.length nm <= 100)%nat
  ∧ (2 <= String.length loc)%nat
  ∧ (forall x, d = Some x -> (String.length x <= 500)%nat).
Proof.
  unfold ItemCreate.valid. rewrite !andb_true_iff, orb_true_iff.
  rewrite !Nat.leb_le, !String.eqb_eq.
  intros ((((Ht & Hn1) & Hn2) & Hd) & Hl). repeat split; try assumption.
  intros x ->. apply Nat.leb_le, Hd.
Qed.

Lemma tagged_and_stored_cases item e w :
  let text := ItemCreate.item_name item ++ " "
              ++ default "" (ItemCreate.description item) in
  let item' := ItemCreate.set_tag (returned_tag (classifier e)) item in
  (∃ r, connect e = true
        ∧ new_row item' (items_id_seq w) (now e) = Ok r
        ∧ tagged_and_stored item e w
          = (Ok (RedirectResponse "/view-items" 303),
             {| items := items w ++ [r];
                items_id_seq := items_id_seq w + 1;
                calls := calls w ++ [CallClassify text; CallInsert item'] |}))
  ∨ (∃ x, connect e = true
          ∧ new_row item' (items_id_seq w) (now e) = Raise x
          ∧ status_of x = 500%Z
          ∧ tagged_and_stored item e w
            = (Raise x,
               {| items := items w; items_id_seq := items_id_seq w;
                  calls := calls w ++ [CallClassify text; CallInsert item'] |}))
  ∨ (connect e = false
     ∧ tagged_and_stored item e w
       = (Raise DatabaseError,
          {| items := items w; items_id_seq := items_id_seq w;
             calls := calls w ++ [CallClassify text] |})).
Proof.
  cbv zeta. unfold tagged_and_stored. cbv zeta.
  destruct (connect e); [destruct (new_row _ _ _) as [r|x] eqn:Hr|].
  - left. exists r. repeat split.
  - right; left. exists x. split; [reflexivity|]. split; [reflexivity|].
    split; [apply (new_row_raises _ _ _ _ Hr)|].
    unfold record_call. simpl. rewrite <- app_assoc. reflexivity.
  - right; right. split; reflexivity.
Qed.

(** The item that reaches the tagging step, and the world it reaches it
    in, for a valid form: the image step either is skipped or has put the
    URL of the upload on the item. *)
Lemma post_submit_item_cases f image e w :
  (∃ x, as_form f = Raise x
        ∧ post_submit_item f image e w = (ErrorResponse (status_of x), w))
  ∨ (∃ item im x,
        as_form f = Ok item ∧ image = Some im
        ∧ truthy (UploadFile.filename im) = true ∧ upload e = Raise x
        ∧ post_submit_item f image e w
          = (ErrorResponse (status_of x),
             record_call (CallUpload (UploadFile.file im)) w))
  ∨ (∃ item item1 w0,
        as_form f = Ok item
        ∧ ((Spec.without_image image ∧ item1 = item ∧ w0 = w)
           ∨ ∃ im res,
               image = Some im ∧ truthy (UploadFile.filename im) = true
               ∧ upload e = Ok res
               ∧ item1 = ItemCreate.set_image_url
                           (default "" (res !! "secure_url")) item
               ∧ w0 = record_call (CallUpload (UploadFile.file im)) w)
        ∧ post_submit_item f image e w
          = match tagged_and_stored item1 e w0 with
            | (Ok r, w') => (r, w')
            | (Raise x, w') => (ErrorResponse (status_of x), w')
            end).
Proof.
  destruct (as_form f) as [item|x] eqn:Hf.
  2:{ left. exists x. split; [reflexivity|].
      apply (post_submit_item_rejected _ _ _ _ _ Hf). }
  right. rewrite (post_submit_item_accepted _ _ _ _ _ Hf), serve_status.
  rewrite submit_item_eq.
  destruct image as [im|].
  - destruct (truthy (UploadFile.filename im)) eqn:Hn.
    + cbv zeta. destruct (upload e) as [res|x] eqn:Hu.
      * right. eexists item, _, _. split; [reflexivity|]. split; [|reflexivity].
        right. exists im, res. repeat split. exact Hn.
      * left. exists item, im, x. repeat split. exact Hn.
    + right. exists item, item, w. split; [reflexivity|]. split; [|reflexivity].
      left. repeat split. exact Hn.
  - right. exists item, item, w. split; [reflexivity|]. split; [|reflexivity].
    left. repeat split.
Qed.

Lemma post_submit_item_success f image e w u s w' :
  post_submit_item f image e w = (RedirectResponse u s, w') ->
  ∃ item item1 r,
    as_form f = Ok item
    ∧ ((Spec.without_image image ∧ item1 = item)
       ∨ ∃ im res,
           image = Some im ∧ truthy (UploadFile.filename im) = true
           ∧ upload e = Ok res
           ∧ item1 = ItemCreate.set_image_url
                       (default "" (res !! "secure_url")) item)
    ∧ connect e = true
    ∧ new_row (ItemCreate.set_tag (returned_tag (classifier e)) item1)
        (items_id_seq w) (now e) = Ok r
    ∧ items w' = (items w ++ [r])%list
    ∧ items_id_seq w' = (items_id_seq w + 1)%Z.
Proof.
  intros H.
  destruct (post_submit_item_cases f image e w)
    as [(x & _ & Hr)|[(item & im & x & _ & _ & _ & _ & Hr)
                     |(item & item1 & w0 & Hf & Hi & Hr)]];
    rewrite Hr in H; try discriminate.
  assert (Hw0 : items w0 = items w ∧ items_id_seq w0 = items_id_seq w).
  { destruct Hi as [(_ & _ & ->)|(im & res & _ & _ & _ & _ & ->)];
      split; reflexivity. }
  destruct Hw0 as [Hw1 Hw2].
  destruct (tagged_and_stored_cases item1 e w0)
    as [(r & Hdb & Hn & Ht)|[(x0 & _ & _ & Hx0 & Ht)|(_ & Ht)]];
    rewrite Ht in H; try discriminate.
  injection H as <- <- <-. exists item, item1, r.
  rewrite Hw1, Hw2 in *. simpl. repeat split; try assumption.
  destruct Hi as [(Hw & -> & _)|(im & res & Hi1 & Hi2 & Hi3 & -> & _)].
  - left. split; [assumption|reflexivity].
  - right. exists im, res. repeat split; assumption.
Qed.

(** X1. The row a successful submission adds carries the submitted fields:
    the next id of the sequence, the time of the insert, the item type
    ([lost] or [found]), the name as typed (2 to 100 characters), the
    description as sent, null when it is absent or sent empty, and the
    location and contact as the columns [VARCHAR(255)] and [VARCHAR(100)]
    store them. *)
Theorem stored_row_reflects_form f image e w u s w'
  (H : post_submit_item f image e w = (RedirectResponse u s, w')) :
  ∃ r ty nm loc ci,
    form_item_type f = Some ty ∧ form_item_name f = Some nm
    ∧ form_location f = Some loc ∧ form_contact_info f = Some ci
    ∧ items w' = (items w ++ [r])%list
    ∧ Items.id r = items_id_seq w ∧ Items.created_at r = now e
    ∧ Items.item_type r = ty ∧ (ty = "lost" ∨ ty = "found")
    ∧ Items.item_name r = nm
    ∧ (2 <= String.length nm)%nat ∧ (String.length nm <= 100)%nat
    ∧ Items.description r = form_value (form_description f)
    ∧ Sql.varchar 255 loc = Some (Items.location r)
    ∧ Sql.varchar 100 ci = Some (Items.contact_info r).
Proof.
  apply post_submit_item_success in H
    as (item & item1 & r & Hf & Hi & _ & Hn & Hw & _).
  apply as_form_ok in Hf
    as (ty & nm & loc & ci & H1 & H2 & H3 & H4 & _ & Hv & ->).
  apply valid_facts in Hv as (Hty & Hn1 & Hn2 & _ & _).
  apply new_row_fields in Hn as (Hid & Hc & Ht & Hnm & Hd & Hl & Hci & _).
  assert (Hsame : ItemCreate.item_type item1 = ty
                  ∧ ItemCreate.item_name item1 = nm
                  ∧ ItemCreate.description item1
                    = form_value (form_description f)
                  ∧ ItemCreate.location item1 = loc
                  ∧ ItemCreate.contact_info item1 = ci).
  { destruct Hi as [(_ & ->)|(im & res & _ & _ & _ & ->)]; repeat split. }
  destruct Hsame as (E1 & E2 & E3 & E4 & E5). simpl in *.
  rewrite E1 in Ht. rewrite E2 in Hnm. rewrite E3 in Hd. rewrite E4 in Hl.
  rewrite E5 in Hci.
  rewrite varchar_fits in Ht
    by (destruct Hty as [-> | ->]; vm_compute; lia).
  rewrite (varchar_fits _ _ Hn2) in Hnm.
  exists r, ty, nm, loc, ci. repeat split; try assumption; congruence.
Qed.

Lemma stored_row_reflects_form_witness :
  ∃ r ty nm loc ci,
    Some "lost" = Some ty ∧ Some "Blue Wallet" = Some nm
    ∧ Some "Library" = Some loc
    ∧ Some "a@b.com" = Some ci
    ∧ items (snd (post_submit_item
                    {| form_item_type := Some "lost";
                       form_item_name := Some "Blue Wallet";
                       form_description := Some "";
                       form_location := Some "Library";
                       form_contact_info := Some "a@b.com" |} None
                    (Sample.answering (Ok Sample.wallets) 40) Sample.three))
      = (items Sample.three ++ [r])%list
    ∧ Items.id r = 4%Z ∧ Items.created_at r = 40%Z
    ∧ Items.item_type r = ty ∧ (ty = "lost" ∨ ty = "found")
    ∧ Items.item_name r = nm
    ∧ (2 <= String.length nm)%nat ∧ (String.length nm <= 100)%nat
    ∧ Items.description r = None
    ∧ Sql.varchar 255 loc = Some (Items.location r)
    ∧ Sql.varchar 100 ci = Some (Items.contact_info r).
Proof.
  apply (stored_row_reflects_form
           {| form_item_type := Some "lost";
              form_item_name := Some "Blue Wallet";
              form_description := Some "";
              form_location := Some "Library";
              form_contact_info := Some "a@b.com" |} None
           (Sample.answering (Ok Sample.wallets) 40) Sample.three
           "/view-items" 303%Z _ eq_refl).
Defined.

(** X2. With an image whose upload succeeds, the stored [image_path] is
    the [secure_url] of the upload result, or the empty string when the
    result has no such entry; the upload call carries the file content and
    is the first call the submission makes. *)
Theorem uploaded_image_path_stored f im res e w u s w'
  (Hname : truthy (UploadFile.filename im) = true)
  (Hres : upload e = Ok res)
  (H : post_submit_item f (Some im) e w = (RedirectResponse u s, w')) :
  ∃ r cs,
    items w' = (items w ++ [r])%list
    ∧ Items.image_path r = Some (default "" (res !! "secure_url"))
    ∧ calls w' = (calls w ++ CallUpload (UploadFile.file im) :: cs)%list.
Proof.
  destruct (post_submit_item_cases f (Some im) e w)
    as [(x & _ & Hr)|[(item & im' & x & _ & _ & _ & _ & Hr)
                     |(item & item1 & w0 & Hf & Hi & Hr)]];
    rewrite Hr in H; try discriminate.
  destruct Hi as [(Hw & _)|(im' & res' & [= <-] & _ & Hu & -> & ->)].
  { simpl in Hw. congruence. }
  rewrite Hres in Hu. injection Hu as <-.
  destruct (tagged_and_stored_cases
              (ItemCreate.set_image_url (default "" (res !! "secure_url")) item)
              e (record_call (CallUpload (UploadFile.file im)) w))
    as [(r & _ & Hn & Ht)|[(x0 & _ & _ & Hx0 & Ht)|(_ & Ht)]];
    rewrite Ht in H; try discriminate.
  injection H as <- <- <-. apply new_row_fields in Hn as (_ & _ & _ & _ & _ & _ & _ & Hp).
  exists r. eexists. simpl. split; [reflexivity|]. split; [exact Hp|].
  rewrite <- app_assoc. reflexivity.
Qed.

Lemma uploaded_image_path_stored_witness :
  ∃ r cs,
    items (snd (post_submit_item Sample.wallet
                  (Some (UploadFile.make (Some "photo.png") "89504e47"))
                  {| upload := Ok {[ "public_id" := "lost_and_found/p" ]};
                     classifier := Ok Sample.wallets; connect := true;
                     now := 40 |}
                  Sample.empty))
    = ([] ++ [r])%list
    ∧ Items.image_path r = Some ""
    ∧ calls (snd (post_submit_item Sample.wallet
                    (Some (UploadFile.make (Some "photo.png") "89504e47"))
                    {| upload := Ok {[ "public_id" := "lost_and_found/p" ]};
                       classifier := Ok Sample.wallets; connect := true;
                       now := 40 |}
                    Sample.empty))
      = ([] ++ CallUpload "89504e47" :: cs)%list.
Proof.
  assert (H : post_submit_item Sample.wallet
                 (Some (UploadFile.make (Some "photo.png") "89504e47"))
                 {| upload := Ok {[ "public_id" := "lost_and_found/p" ]};
                    classifier := Ok Sample.wallets; connect := true;
                    now := 40 |}
                 Sample.empty
               = (RedirectResponse "/view-items" 303,
                  snd (post_submit_item Sample.wallet
                         (Some (UploadFile.make (Some "photo.png") "89504e47"))
                         {| upload := Ok {[ "public_id" := "lost_and_found/p" ]};
                            classifier := Ok Sample.wallets; connect := true;
                            now := 40 |}
                         Sample.empty)))
    by (vm_compute; reflexivity).
  destruct (uploaded_image_path_stored Sample.wallet
              (UploadFile.make (Some "photo.png") "89504e47")
              {[ "public_id" := "lost_and_found/p" ]}
              {| upload := Ok {[ "public_id" := "lost_and_found/p" ]};
                 classifier := Ok Sample.wallets; connect := true; now := 40 |}
              Sample.empty "/view-items" 303%Z _ eq_refl eq_refl H)
    as (r & cs & H1 & H2 & H3).
  exists r, cs. split; [exact H1|]. split; [exact H2|exact H3].
Defined.

(** X3. A failing upload aborts the submission: the answer is an error
    (500 for an exception of the image host), the upload is the only call
    made, so the classifier is not asked and nothing is inserted, and the
    table is as before. *)
Theorem upload_failure_aborts f item im x e w
  (Hvalid : as_form f = Ok item)
  (Hname : truthy (UploadFile.filename im) = true)
  (Hfail : upload e = Raise x) :
  post_submit_item f (Some im) e w
  = (ErrorResponse (status_of x),
     {| items := items w; items_id_seq := items_id_seq w;
        calls := calls w ++ [CallUpload (UploadFile.file im)] |}).
Proof.
  destruct (post_submit_item_cases f (Some im) e w)
    as [(y & Hy & _)|[(item' & im' & y & _ & [= <-] & _ & Hu & Hr)
                     |(item' & item1 & w0 & _ & Hi & _)]].
  - congruence.
  - rewrite Hfail in Hu. injection Hu as <-. exact Hr.
  - destruct Hi as [(Hw & _)|(im' & res & [= <-] & _ & Hu & _)].
    + simpl in Hw. congruence.
    + congruence.
Qed.

Lemma upload_failure_aborts_witness :
  post_submit_item Sample.wallet
    (Some (UploadFile.make (Some "photo.png") "89504e47"))
    (Sample.answering (Ok Sample.wallets) 40) Sample.three
  = (ErrorResponse 500,
     {| items := items Sample.three; items_id_seq := 4;
        calls := [CallUpload "89504e47"] |}).
Proof.
  apply (upload_failure_aborts Sample.wallet
           (ItemCreate.make "lost" "Blue Wallet" None "Library" "a@b.com"
              None None)
           (UploadFile.make (Some "photo.png") "89504e47") CloudinaryError
           (Sample.answering (Ok Sample.wallets) 40) Sample.three
           eq_refl eq_refl eq_refl).
Defined.

(** ** The table under submissions *)

Lemma post_submit_item_table f image e w :
  (∃ r, fst (post_submit_item f image e w) = RedirectResponse "/view-items" 303
        ∧ Items.id r = items_id_seq w
        ∧ items (snd (post_submit_item f image e w)) = (items w ++ [r])%list
        ∧ items_id_seq (snd (post_submit_item f image e w))
          = (items_id_seq w + 1)%Z)
  ∨ (Spec.is_error (fst (post_submit_item f image e w)) = true
     ∧ items (snd (post_submit_item f image e w)) = items w
     ∧ items_id_seq (snd (post_submit_item f image e w)) = items_id_seq w).
Proof.
  destruct (post_submit_item_cases f image e w)
    as [(x & _ & Hr)|[(item & im & x & _ & _ & _ & _ & Hr)
                     |(item & item1 & w0 & Hf & Hi & Hr)]];
    rewrite Hr.
  1,2: right; repeat split.
  assert (Hw0 : items w0 = items w ∧ items_id_seq w0 = items_id_seq w).
  { destruct Hi as [(_ & _ & ->)|(im & res & _ & _ & _ & _ & ->)];
      split; reflexivity. }
  destruct Hw0 as [Hw1 Hw2].
  destruct (tagged_and_stored_cases item1 e w0)
    as [(r & Hdb & Hn & Ht)|[(x0 & _ & _ & Hx0 & Ht)|(_ & Ht)]];
    rewrite Ht; simpl; rewrite ?Hw1, ?Hw2.
  2,3: right; repeat split.
  left. exists r. apply new_row_fields in Hn as (Hid & _).
  rewrite Hid, Hw2. repeat split.
Qed.

(** X4. A submission either is answered with the redirect and adds exactly
    one row at the end of the table, under the id the sequence held, or is
    answered with an error and leaves the table as it was. Rows already
    stored are never changed or removed. *)
Theorem submission_appends_or_fails f image e w :
  (∃ r, fst (post_submit_item f image e w) = RedirectResponse "/view-items" 303
        ∧ Items.id r = items_id_seq w
        ∧ items (snd (post_submit_item f image e w)) = (items w ++ [r])%list)
  ∨ (Spec.is_error (fst (post_submit_item f image e w)) = true
     ∧ items (snd (post_submit_item f image e w)) = items w).
Proof.
  destruct (post_submit_item_table f image e w)
    as [(r & H1 & H2 & H3 & _)|(H1 & H2 & _)].
  - left. exists r. repeat split; assumption.
  - right. split; assumption.
Qed.

(** X5. Unique ids below the next value of the sequence are kept by every
    submission, whatever its outcome. *)
Theorem submission_keeps_ids_unique f image e w (Hwf : well_formed w) :
  well_formed (snd (post_submit_item f image e w)).
Proof.
  destruct Hwf as [Hnd Hlt]. unfold well_formed.
  destruct (post_submit_item_table f image e w)
    as [(r & _ & Hid & -> & ->)|(_ & -> & ->)]; [|split; assumption].
  split.
  - rewrite fmap_app. apply NoDup_app. split; [exact Hnd|]. split.
    + intros x Hx Hx'. apply list_elem_of_fmap in Hx as (y & -> & Hy).
      rewrite Forall_forall in Hlt. specialize (Hlt _ Hy).
      simpl in Hx'. apply list_elem_of_singleton in Hx'. lia.
    + simpl. apply NoDup_singleton.
  - apply Forall_app. split.
    + eapply Forall_impl; [exact Hlt|]. simpl. intros; lia.
    + constructor; [lia|constructor].
Qed.

Lemma submission_keeps_ids_unique_witness :
  well_formed (snd (post_submit_item Sample.wallet None
                      (Sample.answering (Ok Sample.wallets) 40) Sample.three)).
Proof.
  apply (submission_keeps_ids_unique Sample.wallet None
           (Sample.answering (Ok Sample.wallets) 40) Sample.three).
  split.
  - apply (bool_decide_eq_true_1 _). reflexivity.
  - repeat constructor.
Defined.

(** X6. The calls of a submission come in the order upload, classify,
    insert, each at most once, and no insert is made without the classifier
    having been asked. *)
Theorem submission_call_order f image e w :
  ∃ cs, calls (snd (post_submit_item f image e w)) = (calls w ++ cs)%list
        ∧ submission_calls cs.
Proof.
  assert (Htail : forall item w0,
    ∃ cl ins, calls (snd (match tagged_and_stored item e w0 with
                          | (Ok r, w') => (r, w')
                          | (Raise x, w') => (ErrorResponse (status_of x), w')
                          end)) = (calls w0 ++ cl ++ ins)%list
              ∧ (∃ t, cl = [CallClassify t])
              ∧ (ins = [] ∨ ∃ v, ins = [CallInsert v])).
  { intros item w0.
    destruct (tagged_and_stored_cases item e w0)
      as [(r & _ & _ & Ht)|[(x0 & _ & _ & Hx0 & Ht)|(_ & Ht)]]; rewrite Ht; simpl.
    - eexists [_], [_]. split; [reflexivity|]. split; eauto.
    - eexists [_], [_]. split; [reflexivity|]. split; eauto.
    - eexists [_], []. split; [reflexivity|]. split; eauto. }
  destruct (post_submit_item_cases f image e w)
    as [(x & _ & Hr)|[(item & im & x & _ & _ & _ & _ & Hr)
                     |(item & item1 & w0 & Hf & Hi & Hr)]]; rewrite Hr.
  - exists []. split; [simpl; rewrite app_nil_r; reflexivity|].
    exists [], [], []. repeat split; auto.
  - eexists [_]. split; [reflexivity|].
    eexists [_], [], []. repeat split; eauto.
  - destruct (Htail item1 w0) as (cl & ins & Hc & (t & ->) & Hins).
    rewrite Hc.
    destruct Hi as [(_ & _ & ->)|(im & res & _ & _ & _ & _ & ->)].
    + eexists. split; [reflexivity|].
      exists [], [CallClassify t], ins. repeat split; eauto; discriminate.
    + simpl. rewrite <- app_assoc. eexists. split; [reflexivity|].
      eexists [_], [CallClassify t], ins. repeat split; eauto; discriminate.
Qed.

(** ** Round trips *)

Lemma filter_id_fresh (rows : list Items.row) n :
  Forall (fun r => (Items.id r < n)%Z) rows ->
  filter (fun r => Items.id r = n) rows = [].
Proof.
  intros H. apply fetch_none_by_id. eapply Forall_impl; [exact H|].
  simpl. intros; lia.
Qed.

(** X7. Insert then look up: after a successful submission into a
    well-formed table, the detail view of the id the sequence gave shows
    the item just submitted, with its type and name as typed, the time of
    the insert, and the tag the classifier step produced. *)
Theorem submitted_item_is_found f image e w u s w' e'
  (Hwf : well_formed w)
  (H : post_submit_item f image e w = (RedirectResponse u s, w'))
  (Hdb : connect e' = true) :
  ∃ item t,
    get_item (items_id_seq w) e' w'
    = (TemplateResponse "item_detail.html" (ItemContext item), w')
    ∧ item !! "id" = Some (Sql.Int (items_id_seq w))
    ∧ item !! "item_type" = Sql.Text <$> form_item_type f
    ∧ item !! "item_name" = Sql.Text <$> form_item_name f
    ∧ item !! "created_at" = Some (Sql.Timestamp (now e))
    ∧ Sql.varchar 50 (returned_tag (classifier e)) = Some t
    ∧ item !! "tag" = Some (Sql.Text t).
Proof.
  destruct Hwf as [_ Hlt].
  apply post_submit_item_success in H
    as (item & item1 & r & Hf & Hi & _ & Hn & Hw & _).
  apply as_form_ok in Hf
    as (ty & nm & loc & ci & H1 & H2 & _ & _ & _ & Hv & ->).
  apply valid_facts in Hv as (Hty & _ & Hn2 & _ & _).
  pose proof (new_row_fields _ _ _ _ Hn) as (Hid & Hc & Ht & Hnm & _).
  apply new_row_tag in Hn as (_ & _ & _ & Htag).
  destruct (Htag _ eq_refl) as (t & Hvt & Hrt).
  assert (Hsame : ItemCreate.item_type item1 = ty
                  ∧ ItemCreate.item_name item1 = nm).
  { destruct Hi as [(_ & ->)|(im & res & _ & _ & _ & ->)]; split; reflexivity. }
  destruct Hsame as (E1 & E2). simpl in Ht, Hnm. rewrite E1 in Ht.
  rewrite E2 in Hnm.
  assert (Hty20 : (String.length ty <= 20)%nat)
    by (destruct Hty as [-> | ->]; vm_compute; lia).
  rewrite (varchar_fits _ _ Hty20) in Ht.
  rewrite (varchar_fits _ _ Hn2) in Hnm.
  injection Ht as Ht. injection Hnm as Hnm.
  unfold get_item, serve, view_item_detail, get_connection, fetch_item, bind,
    raise, ret.
  rewrite Hdb, Hw, filter_app, (filter_id_fresh _ _ Hlt), filter_cons.
  rewrite decide_True by exact Hid. simpl.
  eexists. exists t. split; [reflexivity|].
  unfold dict, Items.to_tuple. cbn [zip zip_with foldl fst snd].
  rewrite H1, H2, Hid, Hc, <- Ht, <- Hnm, Hrt. simpl.
  repeat (split; [by simplify_map_eq|]). by simplify_map_eq.
Qed.

Lemma submitted_item_is_found_witness :
  ∃ item t,
    get_item 4 (Sample.answering (Raise RequestException) 90)
      (snd (post_submit_item Sample.wallet None
              (Sample.answering (Ok Sample.wallets) 40) Sample.three))
    = (TemplateResponse "item_detail.html" (ItemContext item),
       snd (post_submit_item Sample.wallet None
              (Sample.answering (Ok Sample.wallets) 40) Sample.three))
    ∧ item !! "id" = Some (Sql.Int 4)
    ∧ item !! "item_type" = Some (Sql.Text "lost")
    ∧ item !! "item_name" = Some (Sql.Text "Blue Wallet")
    ∧ item !! "created_at" = Some (Sql.Timestamp 40)
    ∧ Sql.varchar 50 "wallets_and_purses" = Some t
    ∧ item !! "tag" = Some (Sql.Text t).
Proof.
  apply (submitted_item_is_found Sample.wallet None
           (Sample.answering (Ok Sample.wallets) 40) Sample.three
           "/view-items" 303%Z _
           (Sample.answering (Raise RequestException) 90)).
  - split; [apply (bool_decide_eq_true_1 _); reflexivity|repeat constructor].
  - reflexivity.
  - reflexivity.
Defined.

Lemma newer_first_trans : Transitive newer_first.
Proof. intros a b c. unfold newer_first. lia. Qed.

Lemma sorted_head_newest (rows l : list Items.row) r :
  Sorted newer_first rows -> rows ≡ₚ (l ++ [r])%list ->
  Forall (fun x => (Items.created_at x < Items.created_at r)%Z) l ->
  ∃ rest, rows = r :: rest.
Proof.
  intros Hs Hp Hl. destruct rows as [|x rest].
  { apply Permutation_nil_l in Hp. destruct l; discriminate. }
  assert (Hx : x ∈ (l ++ [r])%list) by (rewrite <- Hp; left).
  apply elem_of_app in Hx as [Hx|Hx].
  - exfalso. rewrite Forall_forall in Hl. specialize (Hl _ Hx).
    assert (Hr : r ∈ x :: rest) by (rewrite Hp; set_solver).
    apply elem_of_cons in Hr as [->|Hr]; [lia|].
    apply (Sorted_StronglySorted _ (Transitive0 := newer_first_trans)) in Hs.
    apply StronglySorted_inv in Hs as [_ Hall].
    rewrite Forall_forall in Hall. specialize (Hall _ Hr).
    unfold newer_first in Hall. lia.
  - apply list_elem_of_singleton in Hx as ->. eauto.
Qed.

(** X8. Submit then list: when the time of the insert is later than the
    [created_at] of every row already stored, the listing without a search
    text shows the item just submitted first. *)
Theorem submitted_item_listed_first f image e w u s w' e'
  (Hlater : Forall (fun x => (Items.created_at x < now e)%Z) (items w))
  (H : post_submit_item f image e w = (RedirectResponse u s, w'))
  (Hdb : connect e' = true) :
  ∃ r rest,
    items w' = (items w ++ [r])%list
    ∧ get_view_items "" e' w'
      = (TemplateResponse "items.html" (ItemsContext (item_dict r :: rest) ""),
         w').
Proof.
  apply post_submit_item_success in H
    as (item & item1 & r & _ & _ & _ & Hn & Hw & _).
  apply new_row_fields in Hn as (_ & Hc & _).
  destruct (sorted_head_newest (order_by_created_at_desc (items w')) (items w) r)
    as [rest Hrest].
  - apply Sorted_merge_sort, newer_first_total.
  - unfold order_by_created_at_desc. rewrite merge_sort_Permutation, Hw.
    reflexivity.
  - rewrite Hc. exact Hlater.
  - exists r, (item_dict <$> rest). split; [exact Hw|].
    unfold get_view_items, serve, view_items, get_connection, fetch_items,
      bind, ret.
    rewrite Hdb. simpl. rewrite Hrest. reflexivity.
Qed.

Lemma submitted_item_listed_first_witness :
  ∃ r rest,
    items (snd (post_submit_item Sample.wallet None
                  (Sample.answering (Ok Sample.wallets) 40) Sample.three))
    = (items Sample.three ++ [r])%list
    ∧ get_view_items "" (Sample.answering (Raise RequestException) 90)
        (snd (post_submit_item Sample.wallet None
                (Sample.answering (Ok Sample.wallets) 40) Sample.three))
      = (TemplateResponse "items.html" (ItemsContext (item_dict r :: rest) ""),
         snd (post_submit_item Sample.wallet None
                (Sample.answering (Ok Sample.wallets) 40) Sample.three)).
Proof.
  apply (submitted_item_listed_first Sample.wallet None
           (Sample.answering (Ok Sample.wallets) 40) Sample.three
           "/view-items" 303%Z _
           (Sample.answering (Raise RequestException) 90)).
  - repeat constructor.
  - reflexivity.
  - reflexivity.
Defined.

(** ** Values that pass validation and do not fit the table *)

Lemma get_substring n s c :
  String.get n s = Some c ->
  (n < String.length s)%nat
  ∧ ∃ rest, String.substring n (String.length s - n) s = String c rest.
Proof.
  revert n. induction s as [|a s IH]; intros n H; [discriminate|].
  destruct n as [|n]; simpl in *.
  - injection H as ->. split; [lia|eauto].
  - destruct (IH n H) as [Hlt Hsub]. split; [lia|exact Hsub].
Qed.

Lemma varchar_overflow n s c :
  String.get n s = Some c -> c ≠ " "%char -> Sql.varchar n s = None.
Proof.
  intros Hg Hc. apply get_substring in Hg as [Hlt [rest Hsub]].
  unfold Sql.varchar. rewrite (proj2 (Nat.leb_gt _ _) Hlt), Hsub. simpl.
  rewrite (proj2 (Ascii.eqb_neq _ _) Hc). reflexivity.
Qed.

(** X9. The form places no upper bound on [contact_info], the column is
    [VARCHAR(100)]: a valid form whose contact has a 101st character other
    than a space is answered with status 500 although it passed validation;
    the classifier has been asked by then, and nothing is stored. *)
Theorem long_contact_info_fails f item image c e w
  (Hvalid : as_form f = Ok item)
  (Himage : Spec.without_image image)
  (Hlong : String.get 100 (ItemCreate.contact_info item) = Some c)
  (Hc : c ≠ " "%char) :
  fst (post_submit_item f image e w) = ErrorResponse 500
  ∧ items (snd (post_submit_item f image e w)) = items w
  ∧ ∃ rest, calls (snd (post_submit_item f image e w))
            = (calls w
               ++ CallClassify (ItemCreate.item_name item ++ " "
                                ++ default "" (ItemCreate.description item))
               :: rest)%list.
Proof.
  rewrite (post_submit_item_accepted _ _ _ _ _ Hvalid), serve_status.
  rewrite (submit_item_without_image _ _ _ _ Himage).
  destruct (tagged_and_stored_cases item e w)
    as [(r & _ & Hn & _)|[(x0 & _ & _ & Hx0 & Ht)|(_ & Ht)]].
  - apply new_row_fields in Hn as (_ & _ & _ & _ & _ & _ & Hci & _).
    simpl in Hci. rewrite (varchar_overflow _ _ _ Hlong Hc) in Hci.
    discriminate.
  - rewrite Ht. simpl. rewrite Hx0. repeat split. eexists. reflexivity.
  - rewrite Ht. simpl. repeat split. eexists. reflexivity.
Qed.

Lemma long_contact_info_fails_witness :
  fst (post_submit_item
         {| form_item_type := Some "found"; form_item_name := Some "keys";
            form_description := None; form_location := Some "Gym";
            form_contact_info :=
              Some "front desk of the sports hall, ask for the caretaker on duty between nine and five, or phone 55501000" |}
         None (Sample.answering (Ok Sample.wallets) 40) Sample.three)
  = ErrorResponse 500.
Proof.
  apply (long_contact_info_fails
           {| form_item_type := Some "found"; form_item_name := Some "keys";
              form_description := None; form_location := Some "Gym";
              form_contact_info :=
                Some "front desk of the sports hall, ask for the caretaker on duty between nine and five, or phone 55501000" |}
           (ItemCreate.make "found" "keys" None "Gym"
              "front desk of the sports hall, ask for the caretaker on duty between nine and five, or phone 55501000"
              None None)
           None "0"%char (Sample.answering (Ok Sample.wallets) 40) Sample.three
           eq_refl I eq_refl).
  discriminate.
Defined.

(** X10. A description of more than 500 characters is rejected before
    anything happens (no upload, no classifier call, no insert): with
    status 422 when a required field is absent or sent empty, and otherwise
    with the status 500 of the model's validation error. *)
Theorem long_description_rejected f d image e w
  (Hd : form_description f = Some d)
  (Hlong : (500 < String.length d)%nat) :
  ∃ n, post_submit_item f image e w = (ErrorResponse n, w)
       ∧ (Spec.field_missing f = true -> n = 422%Z)
       ∧ (Spec.field_missing f = false -> n = 500%Z).
Proof.
  assert (Hf : (Spec.field_missing f = true
                ∧ as_form f = Raise RequestValidationError)
               ∨ (Spec.field_missing f = false
                  ∧ as_form f = Raise ValidationError)).
  { unfold Spec.field_missing, as_form, ItemCreate.cls, ItemCreate.valid.
    destruct (form_value (form_item_type f)) as [ty|],
      (form_value (form_item_name f)) as [nm|],
      (form_value (form_location f)) as [loc|],
      (form_value (form_contact_info f)) as [ci|];
      try (left; split; reflexivity).
    right. split; [reflexivity|]. rewrite Hd.
    destruct d as [|c d]; [simpl in Hlong; lia|]. cbn [form_value].
    rewrite (proj2 (Nat.leb_gt _ _) Hlong), andb_false_r. reflexivity. }
  destruct Hf as [[Ha Hf]|[Ha Hf]];
    rewrite (post_submit_item_rejected _ _ _ _ _ Hf); eexists;
    (split; [reflexivity|]); rewrite Ha; split; try discriminate; reflexivity.
Qed.

Lemma long_description_rejected_witness :
  ∃ n, post_submit_item
         {| form_item_type := Some "lost"; form_item_name := Some "Blue Wallet";
            form_description := Some (times "blue leather " 40);
            form_location := Some "Library";
            form_contact_info := Some "a@b.com" |}
         (Some (UploadFile.make (Some "photo.png") "89504e47"))
         (Sample.answering (Ok Sample.wallets) 40) Sample.three
       = (ErrorResponse n, Sample.three)
       ∧ n = 500%Z.
Proof.
  destruct (long_description_rejected
              {| form_item_type := Some "lost";
                 form_item_name := Some "Blue Wallet";
                 form_description := Some (times "blue leather " 40);
                 form_location := Some "Library";
                 form_contact_info := Some "a@b.com" |}
              (times "blue leather " 40)
              (Some (UploadFile.make (Some "photo.png") "89504e47"))
              (Sample.answering (Ok Sample.wallets) 40) Sample.three eq_refl)
    as (n & Hr & _ & Hn).
  - vm_compute. lia.
  - exists n. split; [exact Hr|]. apply Hn. reflexivity.
Defined.

(** ** The database out of reach, and the read routes *)

(** X11. With the database unreachable both read routes answer 500, and a
    valid submission without an image answers 500 after the classifier has
    been asked: the connection is opened only after the tagging step. In no
    case is the table touched. *)
Theorem database_unreachable e w (Hdown : connect e = false) :
  (forall search, get_view_items search e w = (ErrorResponse 500, w))
  ∧ (forall item_id, get_item item_id e w = (ErrorResponse 500, w))
  ∧ forall f item image,
      as_form f = Ok item -> Spec.without_image image ->
      post_submit_item f image e w
      = (ErrorResponse 500,
         record_call
           (CallClassify (ItemCreate.item_name item ++ " "
                          ++ default "" (ItemCreate.description item))) w).
Proof.
  repeat split.
  - intros search.
    unfold get_view_items, serve, view_items, get_connection, bind.
    rewrite Hdown. reflexivity.
  - intros item_id.
    unfold get_item, serve, view_item_detail, get_connection, bind.
    rewrite Hdown. reflexivity.
  - intros f item image Hf Hi.
    rewrite (post_submit_item_accepted _ _ _ _ _ Hf), serve_status.
    rewrite (submit_item_without_image _ _ _ _ Hi).
    unfold tagged_and_stored. cbv zeta. rewrite Hdown. reflexivity.
Qed.

Lemma database_unreachable_witness :
  get_view_items "wallet"
    {| upload := Raise CloudinaryError; classifier := Ok Sample.wallets;
       connect := false; now := 40 |} Sample.three
  = (ErrorResponse 500, Sample.three)
  ∧ calls (snd (post_submit_item Sample.wallet None
                  {| upload := Raise CloudinaryError;
                     classifier := Ok Sample.wallets;
                     connect := false; now := 40 |} Sample.three))
    = [CallClassify "Blue Wallet "].
Proof.
  destruct (database_unreachable
              {| upload := Raise CloudinaryError; classifier := Ok Sample.wallets;
                 connect := false; now := 40 |} Sample.three eq_refl)
    as (Hl & _ & Hs).
  split; [apply Hl|].
  rewrite (Hs Sample.wallet
             (ItemCreate.make "lost" "Blue Wallet" None "Library" "a@b.com"
                None None) None eq_refl I).
  reflexivity.
Defined.

(** X12. The read routes change nothing: whatever the search text, the id
    and the state of the database connection, the table, the sequence and
    the log of calls are as before. *)
Theorem read_routes_change_nothing search item_id e w :
  snd (get_view_items search e w) = w ∧ snd (get_item item_id e w) = w.
Proof.
  split.
  - unfold get_view_items. rewrite serve_snd.
    unfold view_items, get_connection, fetch_items, bind, ret.
    destruct (connect e); [|reflexivity].
    destruct (truthy (Some search)); [|reflexivity].
    destruct (PyStr.has_nul _); [reflexivity|].
    destruct (select_where _ _); reflexivity.
  - unfold get_item. rewrite serve_snd.
    unfold view_item_detail, get_connection, fetch_item, bind, ret, raise.
    destruct (connect e); [|reflexivity].
    destruct (head _); reflexivity.
Qed.

(** ** The listing under any search text *)

Lemma tokens_before_percent s :
  is_Some (Sql.tokens (s ++ "%"))
  ∧ forall c, is_Some (Sql.tokens (String c (s ++ "%"))).
Proof.
  induction s as [|a s [IH1 IH2]].
  - split; [simpl; eauto|]. intros c. simpl.
    destruct (Ascii.eqb c "%"), (Ascii.eqb c "_"), (Ascii.eqb c "\"); simpl; eauto.
  - split; [apply IH2|]. intros c.
    change (String c (String a s ++ "%")) with (String c (String a (s ++ "%"))).
    destruct (IH2 a) as [ts Hts]. destruct IH1 as [ts' Hts'].
    cbn [Sql.tokens].
    destruct (Ascii.eqb c "%"); [cbn [Sql.tokens] in Hts; rewrite Hts; simpl; eauto|].
    destruct (Ascii.eqb c "_"); [cbn [Sql.tokens] in Hts; rewrite Hts; simpl; eauto|].
    destruct (Ascii.eqb c "\").
    + rewrite Hts'. simpl. eauto.
    + cbn [Sql.tokens] in Hts. rewrite Hts. simpl. eauto.
Qed.

(** The pattern [view_items] builds is never malformed. *)
Lemma search_pattern_tokens search :
  is_Some (Sql.tokens (PyStr.lower ("%" ++ search ++ "%"))).
Proof.
  rewrite !lower_append. change (PyStr.lower "%") with "%".
  change ("%" ++ PyStr.lower search ++ "%")
    with (String "%" (PyStr.lower search ++ "%")).
  apply tokens_before_percent.
Qed.

Lemma select_where_sublist cond rows res :
  select_where cond rows = Some res -> sublist res rows.
Proof.
  revert res. induction rows as [|r rows IH]; simpl; intros res H.
  - injection H as <-. constructor.
  - destruct (cond r) as [keep|]; simpl in H; [|discriminate].
    destruct (select_where cond rows) as [rest|]; simpl in H; [|discriminate].
    injection H as <-. destruct keep.
    + apply sublist_skip, IH. reflexivity.
    + apply sublist_cons, IH. reflexivity.
Qed.

Lemma select_where_total cond rows :
  (forall r, is_Some (cond r)) -> is_Some (select_where cond rows).
Proof.
  intros Hc. induction rows as [|r rows [rest IH]]; simpl; [eauto|].
  destruct (Hc r) as [keep ->]. rewrite IH. simpl. eauto.
Qed.

(** X13. With the database reachable the listing fails on one kind of
    search text only, one that holds a NUL character, which the driver
    refuses (status 500, nothing changed). For every other search text,
    wildcards and backslashes included, the listing is rendered: the
    pattern built from the text is never malformed. The rows shown are rows
    of the table, none shown twice over, in descending order of
    [created_at]. *)
Theorem listing_fails_only_on_nul search e w (Hdb : connect e = true) :
  (PyStr.has_nul search = true
   ∧ get_view_items search e w = (ErrorResponse 500, w))
  ∨ (PyStr.has_nul search = false
     ∧ ∃ rows,
         get_view_items search e w
         = (TemplateResponse "items.html"
              (ItemsContext (item_dict <$> rows) search), w)
         ∧ Sorted newer_first rows
         ∧ rows ⊆+ items w).
Proof.
  unfold get_view_items, serve, view_items, get_connection, fetch_items, bind, ret.
  rewrite Hdb, has_nul_pattern.
  destruct (PyStr.has_nul search) eqn:Hnul.
  - left. split; [reflexivity|].
    destruct search as [|c search]; [discriminate|]. reflexivity.
  - right. split; [reflexivity|]. destruct (truthy (Some search)).
    + destruct (select_where_total
                  (where_search ("%" ++ search ++ "%")) (items w)) as [res Hres].
      { intros r. unfold where_search, Sql.ilike, Sql.like.
        destruct (search_pattern_tokens search) as [ts ->]. simpl. eauto. }
      rewrite Hres. eexists. split; [reflexivity|].
      split; [apply Sorted_merge_sort, newer_first_total|].
      unfold order_by_created_at_desc. rewrite merge_sort_Permutation.
      apply sublist_submseteq, (select_where_sublist _ _ _ Hres).
    + eexists. split; [reflexivity|].
      split; [apply Sorted_merge_sort, newer_first_total|].
      unfold order_by_created_at_desc. rewrite merge_sort_Permutation.
      reflexivity.
Qed.

Lemma listing_fails_only_on_nul_witness :
  get_view_items (String zero "") (Sample.answering (Raise RequestException) 90)
    Sample.three
  = (ErrorResponse 500, Sample.three)
  ∧ ∃ rows,
      get_view_items "50%\" (Sample.answering (Raise RequestException) 90)
        Sample.three
      = (TemplateResponse "items.html" (ItemsContext (item_dict <$> rows) "50%\"),
         Sample.three)
      ∧ Sorted newer_first rows
      ∧ rows ⊆+ items Sample.three.
Proof.
  split.
  - destruct (listing_fails_only_on_nul (String zero "")
                (Sample.answering (Raise RequestException) 90) Sample.three
                eq_refl) as [[_ H]|[H _]]; [exact H|discriminate].
  - destruct (listing_fails_only_on_nul "50%\"
                (Sample.answering (Raise RequestException) 90) Sample.three
                eq_refl) as [[H _]|[_ H]]; [discriminate|exact H].
Defined.

Lemma lower_no_backslash s :
  no_backslash s = true -> no_backslash (PyStr.lower s) = true.
Proof.
  induction s as [|c s IH]; simpl; [reflexivity|].
  destruct (lower_char_special c) as (_ & _ & ->).
  rewrite !andb_true_iff. intros (Hc & Hs). split; [exact Hc|apply IH, Hs].
Qed.

Lemma tokens_no_backslash s rest ts :
  no_backslash s = true -> Sql.tokens rest = Some ts ->
  Sql.tokens (s ++ rest) = Some (toks s ++ ts)%list.
Proof.
  intros Hs Hrest. induction s as [|c s IH]; simpl in *; [exact Hrest|].
  rewrite andb_true_iff, negb_true_iff in Hs. destruct Hs as (Hc & Hs).
  rewrite (IH Hs), Hc. unfold tok_of.
  destruct (Ascii.eqb c "%"); [reflexivity|].
  destruct (Ascii.eqb c "_"); reflexivity.
Qed.

Lemma matches_any_skip ts t : Sql.matches ts t = true -> Sql.matches (Sql.TAny :: ts) t = true.
Proof. intros H. rewrite matches_any_cons, H. reflexivity. Qed.

Lemma matches_own_prefix p t :
  PyStr.startswith p t = true -> Sql.matches (toks p ++ [Sql.TAny]) t = true.
Proof.
  revert t. induction p as [|a p IH]; intros t H.
  - apply matches_any.
  - destruct t as [|b t]; [discriminate|]. simpl in H.
    apply andb_true_iff in H as [Hab Ht]. apply IH in Ht.
    cbn [toks app]. unfold tok_of.
    destruct (Ascii.eqb a "%").
    + rewrite matches_any_cons. cbv beta iota.
      apply orb_true_iff. right. apply matches_any_skip, Ht.
    + destruct (Ascii.eqb a "_"); cbn [Sql.matches]; [exact Ht|].
      rewrite Hab, Ht. reflexivity.
Qed.

Lemma matches_own_substring p t :
  PyStr.contains p t = true ->
  Sql.matches (Sql.TAny :: toks p ++ [Sql.TAny]) t = true.
Proof.
  induction t as [|c t IH]; intros H; rewrite matches_any_cons; cbv beta iota;
    cbn [PyStr.contains] in H; apply orb_true_iff in H as [H|H].
  - rewrite (matches_own_prefix _ _ H). reflexivity.
  - discriminate.
  - rewrite (matches_own_prefix _ _ H). reflexivity.
  - apply orb_true_iff. right. apply IH, H.
Qed.

Lemma ilike_finds_substring search text :
  no_backslash search = true ->
  Spec.ci_contains search text = true ->
  Sql.ilike text ("%" ++ search ++ "%") = Some true.
Proof.
  intros Hs Hc. unfold Sql.ilike, Sql.like, Spec.ci_contains in *.
  rewrite !lower_append. change (PyStr.lower "%") with "%".
  change ("%" ++ PyStr.lower search ++ "%")
    with (String "%" (PyStr.lower search ++ "%")).
  cbn [Sql.tokens]. change (Ascii.eqb "%" "%") with true. cbv iota.
  rewrite (tokens_no_backslash _ "%" [Sql.TAny] (lower_no_backslash _ Hs))
    by reflexivity.
  simpl. f_equal. apply matches_own_substring, Hc.
Qed.

Lemma where_search_total search r :
  is_Some (where_search ("%" ++ search ++ "%") r).
Proof.
  unfold where_search, Sql.ilike, Sql.like.
  destruct (search_pattern_tokens search) as [ts ->]. simpl. eauto.
Qed.

Lemma select_where_keeps cond rows res r :
  select_where cond rows = Some res -> r ∈ rows -> cond r = Some true ->
  r ∈ res.
Proof.
  intros Hres Hin Hk. revert res Hres.
  induction rows as [|x l IH]; intros res Hres; [inversion Hin|].
  simpl in Hres.
  destruct (cond x) as [keep|] eqn:Hx; simpl in Hres; [|discriminate].
  destruct (select_where cond l) as [rest|]; simpl in Hres; [|discriminate].
  injection Hres as <-.
  apply elem_of_cons in Hin as [->|Hin].
  - rewrite Hk in Hx. injection Hx as <-. left.
  - specialize (IH Hin rest eq_refl). destruct keep; [right|]; exact IH.
Qed.

Lemma where_search_finds search r :
  no_backslash search = true -> Spec.matches_search search r = true ->
  where_search ("%" ++ search ++ "%") r = Some true.
Proof.
  intros Hs Hm.
  destruct (where_search_total search r) as [b Hb]. rewrite Hb. f_equal.
  unfold where_search, Spec.matches_search in *.
  destruct (Sql.ilike (Items.item_name r) _) as [a|] eqn:Ha; [|discriminate].
  destruct (Sql.ilike (Items.location r) _) as [c|] eqn:Hc; [|discriminate].
  simpl in Hb. injection Hb as <-.
  apply orb_true_iff in Hm as [Hm|Hm].
  - rewrite (ilike_finds_substring _ _ Hs Hm) in Ha. injection Ha as <-.
    reflexivity.
  - rewrite (ilike_finds_substring _ _ Hs Hm) in Hc. injection Hc as <-.
    apply orb_true_r.
Qed.

(** X14. Nothing is missed when the search text has no backslash and no
    NUL: every row whose name or location contains the search text, case
    ignored, is in the listing, also when the text has [%] or [_] in
    it. *)
Theorem listing_finds_all_substring_matches search e w
  (Hdb : connect e = true) (Hs : no_backslash search = true)
  (Hnul : PyStr.has_nul search = false) :
  ∃ rows,
    get_view_items search e w
    = (TemplateResponse "items.html" (ItemsContext (item_dict <$> rows) search), w)
    ∧ forall r, r ∈ items w -> Spec.matches_search search r = true -> r ∈ rows.
Proof.
  unfold get_view_items, serve, view_items, get_connection, fetch_items, bind, ret.
  rewrite Hdb, has_nul_pattern, Hnul. destruct (truthy (Some search)).
  - destruct (select_where_total
                (where_search ("%" ++ search ++ "%")) (items w)
                (where_search_total search)) as [res Hres].
    rewrite Hres. eexists. split; [reflexivity|].
    intros r Hin Hm. unfold order_by_created_at_desc.
    rewrite merge_sort_Permutation.
    apply (select_where_keeps _ _ _ _ Hres Hin), where_search_finds; assumption.
  - eexists. split; [reflexivity|]. intros r Hin _.
    unfold order_by_created_at_desc. rewrite merge_sort_Permutation. exact Hin.
Qed.

Lemma listing_finds_all_substring_matches_witness :
  ∃ rows,
    get_view_items "b_" (Sample.answering (Raise RequestException) 90)
      {| items := [ Sample.row 1 "abc" "Hall" 10; Sample.row 2 "tab_key" "Lab" 30 ];
         items_id_seq := 3; calls := [] |}
    = (TemplateResponse "items.html" (ItemsContext (item_dict <$> rows) "b_"),
       {| items := [ Sample.row 1 "abc" "Hall" 10; Sample.row 2 "tab_key" "Lab" 30 ];
          items_id_seq := 3; calls := [] |})
    ∧ Sample.row 2 "tab_key" "Lab" 30 ∈ rows.
Proof.
  destruct (listing_finds_all_substring_matches "b_"
              (Sample.answering (Raise RequestException) 90)
              {| items := [ Sample.row 1 "abc" "Hall" 10;
                            Sample.row 2 "tab_key" "Lab" 30 ];
                 items_id_seq := 3; calls := [] |} eq_refl eq_refl eq_refl)
    as (rows & Hr & Hall).
  exists rows. split; [exact Hr|].
  apply Hall; [apply list_elem_of_further, list_elem_of_here|reflexivity].
Defined.

(** X15. The search ignores the case of the search text too: two search
    texts that are equal in lower case fetch the same rows. *)
Theorem search_text_case_ignored s1 s2 e w
  (H : PyStr.lower s1 = PyStr.lower s2) :
  fetch_items s1 e w = fetch_items s2 e w.
Proof.
  unfold fetch_items.
  assert (Ht : truthy (Some s1) = truthy (Some s2)).
  { destruct s1, s2; try reflexivity; discriminate. }
  assert (Hn : forall s, PyStr.has_nul (PyStr.lower s) = PyStr.has_nul s).
  { induction s as [|c s IH]; [reflexivity|]. simpl. rewrite IH. f_equal.
    destruct c as [[] [] [] [] [] [] [] []]; reflexivity. }
  rewrite Ht, !has_nul_pattern, <- (Hn s1), <- (Hn s2), H.
  destruct (truthy (Some s2)); [|reflexivity].
  destruct (PyStr.has_nul (PyStr.lower s2)); [reflexivity|].
  assert (Hw : forall r, where_search ("%" ++ s1 ++ "%") r
                         = where_search ("%" ++ s2 ++ "%") r).
  { intros r. unfold where_search, Sql.ilike.
    rewrite !lower_append, H. reflexivity. }
  assert (Hsel : select_where (where_search ("%" ++ s1 ++ "%")) (items w)
                 = select_where (where_search ("%" ++ s2 ++ "%")) (items w)).
  { induction (items w) as [|r l IH]; [reflexivity|]. simpl.
    rewrite Hw, IH. reflexivity. }
  rewrite Hsel. reflexivity.
Qed.

Lemma search_text_case_ignored_witness :
  fetch_items "WALLET" (Sample.answering (Raise RequestException) 90) Sample.three
  = fetch_items "wallet" (Sample.answering (Raise RequestException) 90)
      Sample.three.
Proof.
  apply (search_text_case_ignored "WALLET" "wallet"
           (Sample.answering (Raise RequestException) 90) Sample.three eq_refl).
Defined.

(** ** Where a tag comes from *)

(** X16. A tag other than the fallback is always read off the response:
    [auto_tag_item] returns one only when the response is an object whose
    [labels] value has a string as element 0, or a list headed by an object
    whose [label] is a string, and the tag is that string in lower case. *)
Theorem tag_comes_from_response n d e w s
  (H : fst (auto_tag_item n d e w) = Ok s) (Hs : s ≠ "miscellaneous") :
  ∃ j l,
    classifier e = Ok j ∧ s = PyStr.lower l
    ∧ ((∃ fields v, j = JObj fields ∧ fields !! "labels" = Some v
                    ∧ Py.getitem_0 v = Ok (JStr l))
       ∨ (∃ fields rest, j = JArr (JObj fields :: rest)
                         ∧ fields !! "label" = Some (JStr l))).
Proof.
  rewrite auto_tag_item_eq in H. simpl in H. injection H as H.
  unfold returned_tag in H.
  destruct (classifier e) as [j|x]; [|congruence].
  destruct (top_label j) as [t|x] eqn:E; [|congruence]. subst t.
  exists j. unfold top_label in E.
  assert (Hl : forall v, Py.lower v = Ok s -> ∃ l, v = JStr l ∧ s = PyStr.lower l).
  { intros [] Hv; simpl in Hv; try discriminate.
    injection Hv as <-. eauto. }
  destruct j as [| | | |l|fields]; simpl in E; try congruence.
  - destruct l as [|first l]; simpl in E; [discriminate|].
    destruct (Py.contains_key "label" first) as [[]|] eqn:Hc; simpl in E;
      try congruence.
    destruct first as [| | |x|x|fields]; simpl in E; try discriminate.
    destruct (fields !! "label") as [v|] eqn:Hf; simpl in E; [|discriminate].
    apply Hl in E as (lbl & -> & ->).
    exists lbl. repeat split. right. exists fields, l. split; [reflexivity|exact Hf].
  - destruct (bool_decide _); simpl in E; [|congruence].
    destruct (fields !! "labels") as [v|] eqn:Hf; simpl in E; [|discriminate].
    destruct (Py.getitem_0 v) as [top|] eqn:Hv; simpl in E; [|discriminate].
    apply Hl in E as (lbl & -> & ->).
    exists lbl. repeat split. left. exists fields, v. repeat split; assumption.
Qed.

Lemma tag_comes_from_response_witness :
  ∃ j l,
    Ok Sample.spaceship = Ok j ∧ "spaceship" = PyStr.lower l
    ∧ ((∃ fields v, j = JObj fields ∧ fields !! "labels" = Some v
                    ∧ Py.getitem_0 v = Ok (JStr l))
       ∨ (∃ fields rest, j = JArr (JObj fields :: rest)
                         ∧ fields !! "label" = Some (JStr l))).
Proof.
  apply (tag_comes_from_response "Passport" ""
           (Sample.answering (Ok Sample.spaceship) 5) Sample.empty "spaceship"
           eq_refl).
  discriminate.
Defined.

(** ** What validation lets through *)

(** X17. Validation rejects nothing else: a form with the four required
    fields, the contact not empty, an item type [lost] or [found], a name
    of 2 to 100 characters, a location of at least 2 and a description
    absent or of at most 500 characters is accepted, and the item built
    from it carries the fields as typed (the description is none when the
    field is absent or sent empty), with no image URL and no tag yet. No
    bound is put on the length of the contact, nor an upper bound on the
    location. *)
Theorem validation_accepts f
  (Hok : Spec.fails_validation f = false)
  (Hci : form_contact_info f ≠ Some "")
  (Hd : forall d, form_description f = Some d -> (String.length d <= 500)%nat) :
  ∃ item,
    as_form f = Ok item
    ∧ form_item_type f = Some (ItemCreate.item_type item)
    ∧ form_item_name f = Some (ItemCreate.item_name item)
    ∧ form_location f = Some (ItemCreate.location item)
    ∧ form_contact_info f = Some (ItemCreate.contact_info item)
    ∧ ItemCreate.description item = form_value (form_description f)
    ∧ ItemCreate.image_url item = None ∧ ItemCreate.tag item = None.
Proof.
  unfold Spec.fails_validation in Hok. unfold as_form, ItemCreate.cls.
  rewrite !orb_false_iff, !negb_false_iff in Hok.
  destruct Hok as (((Ht & Hn) & Hl) & Hc).
  destruct (form_item_type f) as [ty|]; [|discriminate].
  destruct (form_item_name f) as [nm|]; [|discriminate].
  destruct (form_location f) as [loc|]; [|discriminate].
  destruct (form_contact_info f) as [ci|]; [|discriminate].
  assert (Hv : ItemCreate.valid ty nm (form_value (form_description f)) loc
               = true).
  { unfold ItemCreate.valid. rewrite Ht. apply andb_true_iff in Hn as [-> ->].
    rewrite Hl. simpl.
    destruct (form_description f) as [[|c d]|]; try reflexivity.
    cbn [form_value].
    rewrite (proj2 (Nat.leb_le _ _) (Hd _ eq_refl)). reflexivity. }
  destruct ty as [|c1 ty]; [discriminate|].
  destruct nm as [|c2 nm]; [discriminate|].
  destruct loc as [|c3 loc]; [discriminate|].
  destruct ci as [|c4 ci]; [congruence|].
  cbn [form_value]. rewrite Hv. eexists. split; [reflexivity|]. repeat split.
Qed.

Lemma validation_accepts_witness :
  ∃ item,
    as_form {| form_item_type := Some "found"; form_item_name := Some "Ab";
               form_description := Some ""; form_location := Some "B2";
               form_contact_info := Some "7" |}
    = Ok item
    ∧ ItemCreate.item_name item = "Ab" ∧ ItemCreate.contact_info item = "7"
    ∧ ItemCreate.description item = None.
Proof.
  destruct (validation_accepts
              {| form_item_type := Some "found"; form_item_name := Some "Ab";
                 form_description := Some ""; form_location := Some "B2";
                 form_contact_info := Some "7" |} eq_refl)
    as (item & Hr & _ & Hn & _ & Hc & Hd & _).
  - discriminate.
  - intros d [= <-]. simpl. lia.
  - exists item. split; [exact Hr|]. simpl in Hn, Hc, Hd.
    repeat split; congruence.
Defined.
